(** * The experiment comparison orchestrator of the Privacy Playground

    A shallow embedding of the orchestration logic of the [App] component,
    in its current variant (the one with the four tabs): the two evaluation
    calls [runExperiment] and [runFederatedExperiment], their sequencing in
    [runComparison], the cooldown-gated ethics prompt and the aggregator
    table.  The federated [Result] of the earlier variant, kept in
    frontend/src/App.tsx, is in module [Earlier], its event loop in module
    [EarlierApp], and the first variant of the component, from the same
    file, in module [Simple].

    Conventions.
    - A JavaScript [number] is an IEEE-754 double: Rocq's primitive [float].
      [Date.now()] timestamps are integers of milliseconds: [Z].
    - A JSON field that may be absent or [null] is a [Js A]; the body of an
      error response, of which the code reads [detail] whatever it is, is a
      [Json] value.
    - React state is the record [AppState]; a handler reads the state of the
      render it was created in (its closure, called [snap] below) and writes
      through the setters, which act on the current state.
    - An [async] function is cut at its [await]s: what runs before the
      [fetch] is a [_start] function, what runs after it settles a [_resume]
      function.  The table of suspended invocations is a [gmap]. *)

From Stdlib Require Import ZArith String Bool List PrimFloat SpecFloat FloatOps.
From Stdlib Require Import FloatAxioms Lia.
From stdpp Require Import gmap strings.
Import ListNotations.

Local Open Scope string_scope.
Local Open Scope Z_scope.

(** ** JavaScript values *)

Inductive Js (A : Type) : Type :=
| Undefined
| Null
| Val (a : A).
Arguments Undefined {A}.
Arguments Null {A}.
Arguments Val {A} a.

(** [ToBoolean]: the values of a type that convert to [false]. *)
Class Falsy (A : Type) := falsy : A -> bool.

(** [0], [-0] and [NaN] are falsy. *)
#[global] Instance float_falsy : Falsy float :=
  fun x => (PrimFloat.eqb x 0%float || negb (PrimFloat.eqb x x))%bool.

(** The empty string is falsy. *)
#[global] Instance string_falsy : Falsy string :=
  fun s => String.eqb s "".

Definition truthy {A} `{Falsy A} (v : Js A) : bool :=
  match v with
  | Val a => negb (falsy a)
  | Undefined | Null => false
  end.

(** [a || b] *)
Definition js_or {A} `{Falsy A} (a b : Js A) : Js A :=
  if truthy a then a else b.

(** [a || d] where [d] is a literal: the result is never [undefined]. *)
Definition or_else {A} `{Falsy A} (a : Js A) (d : A) : A :=
  match a with
  | Val x => if falsy x then d else x
  | Undefined | Null => d
  end.

(** [v !== undefined] *)
Definition is_defined {A} (v : Js A) : bool :=
  match v with
  | Undefined => false
  | _ => true
  end.

(** An optional property of a typed object ([epsilon?: number]). *)
Definition of_option {A} (o : option A) : Js A :=
  match o with
  | Some a => Val a
  | None => Undefined
  end.

(** ** The data model (types [Config], [Result], [ComparisonData]) *)

Module Config.
Record t : Type := mk {
  sampleDataset : string;
  modelType : string;
  dpEnabled : bool;
  epsilon : option float;
}.
End Config.

(** What [aggregatorMap[key]] can yield, and so what travels as an
    aggregator: a string, or a member every object inherits from
    [Object.prototype] (a function or an object, never a string). *)
Inductive MapValue : Type :=
| Text (s : string)
| Inherited (key : string).

#[global] Instance mapvalue_falsy : Falsy MapValue :=
  fun v => match v with
           | Text s => String.eqb s ""
           | Inherited _ => false
           end.

Inductive Strategy : Type := strategy_dp | strategy_fl.

Module Result.
Record t : Type := mk {
  baselineAccuracy : float;
  privateAccuracy : Js float;
  accuracyLoss : Js float;
  f1Score : Js float;
  precision : Js float;
  recall : Js float;
  epsilon : Js float;
  samplesEvaluated : float;
  modelUsed : string;
  aggregator : Js MapValue;
  strategy : Js Strategy;
}.
End Result.

Module ComparisonData.
Record t : Type := mk {
  baseline : option Result.t;
  private : option Result.t;
}.
End ComparisonData.

(** ** The evaluation service, as the orchestrator sees it *)

(** The parsed body of a successful response ([data]).  Any field may be
    absent or [null]. *)
Module Data.
Record t : Type := mk {
  baseline_accuracy : Js float;
  private_accuracy : Js float;
  accuracy_loss : Js float;
  f1_score : Js float;
  precision : Js float;
  recall : Js float;
  epsilon : Js float;
  samples_evaluated : Js float;
  model_used : Js string;
  accuracy : Js float;
}.
End Data.

(** The body of a request, as handed to [JSON.stringify]. *)
Inductive Request : Type :=
| ExperimentRequest                      (* POST /api/experiment *)
    (dataset model_type : string) (dp_enabled : bool) (epsilon : Js float)
| FlExperimentRequest                    (* POST /api/fl/experiment *)
    (dataset model_type : string) (aggregation : MapValue).

(** What a [catch] clause receives. *)
Inductive Thrown : Type :=
| ErrorObject (message : string)         (* err instanceof Error *)
| NotAnError.

(** A value [JSON.parse] yields.  A number comes with its decimal text, the
    string [String(x)] gives for it. *)
#[warnings="-register-all"]
Inductive Json : Type :=
| JNull
| JBool (b : bool)
| JNumber (x : float) (text : string)
| JString (s : string)
| JArray (items : list Json)
| JObject (members : list (string * Json)).

(** [null], [false], [0] and the empty string are falsy; arrays and objects,
    empty or not, are truthy. *)
#[global] Instance json_falsy : Falsy Json :=
  fun v => match v with
           | JNull => true
           | JBool b => negb b
           | JNumber x _ => falsy x
           | JString s => falsy s
           | JArray _ | JObject _ => false
           end.

(** [v[key]] for a key no prototype defines, such as [detail]: the own member
    of an object (the last one of that name, as [JSON.parse] keeps it),
    [undefined] on a boolean, a number, a string or an array; [None] when [v]
    is [null] and the read throws a [TypeError]. *)
Definition json_member (key : string) (v : Json) : option (Js Json) :=
  match v with
  | JNull => None
  | JObject members =>
      Some match List.find (fun m => String.eqb (fst m) key) (rev members) with
           | Some (_, JNull) => Null
           | Some (_, x) => Val x
           | None => Undefined
           end
  | _ => Some Undefined
  end.

Definition has_member (key : string) (members : list (string * Json)) : bool :=
  existsb (fun m => String.eqb (fst m) key) members.

(** [String(v)], the conversion [new Error(v)] applies to its argument.  An
    array is the texts of its items joined by commas, with nothing for a
    [null] item.  An object is converted by its [toString] method: the
    inherited one gives [[object Object]]; an own member of that name, which
    in parsed JSON is never a function, leaves no usable conversion and a
    [TypeError] is thrown ([None]). *)
Fixpoint toString (v : Json) : option string :=
  match v with
  | JNull => Some "null"
  | JBool true => Some "true"
  | JBool false => Some "false"
  | JNumber _ text => Some text
  | JString s => Some s
  | JArray items =>
      (fix join (l : list Json) : option string :=
         match l with
         | [] => Some ""
         | x :: rest =>
             match (match x with JNull => Some "" | _ => toString x end) with
             | None => None
             | Some first =>
                 match rest with
                 | [] => Some first
                 | _ :: _ =>
                     match join rest with
                     | None => None
                     | Some others => Some (first ++ "," ++ others)
                     end
                 end
             end
         end) items
  | JObject members =>
      if has_member "toString" members then None else Some "[object Object]"
  end.

(** The messages of the two [TypeError]s, which are the engine's: those of
    V8. *)
Definition nullReadMessage : string :=
  "Cannot read properties of null (reading 'detail')".

Definition toPrimitiveMessage : string :=
  "Cannot convert object to primitive value".

(** The body of a response whose [ok] is false: [response.json()] rejects,
    or yields a value whose [detail] is read. *)
Inductive ErrorBody : Type :=
| Unparseable
| Parsed (errorData : Json).

(** The error body of the service: an object with a [detail] string. *)
Definition detailBody (detail : string) : Json :=
  JObject [("detail", JString detail)].

(** How one [fetch] and the reading of its body end. *)
Inductive FetchOutcome : Type :=
| Rejected (e : Thrown)                  (* fetch() rejects *)
| NotOk (body : ErrorBody)               (* !response.ok *)
| OkUnreadable (e : Thrown)              (* response.ok, reading data throws *)
| Ok (data : Data.t).

Definition succeeded (o : FetchOutcome) : bool :=
  match o with
  | Ok _ => true
  | _ => false
  end.

(** ** React state of the [App] component *)

Inductive Tab : Type := playground | survey | dataset | visualization.
Inductive TrainingMode : Type := dp | fl.
Inductive Status : Type := idle | running.

Record AppState : Type := mkApp {
  activeTab : Tab;
  trainingMode : TrainingMode;
  aggregator : string;
  config : Config.t;
  status : Status;
  comparison : ComparisonData.t;
  error : option string;
  showEthicsPrompt : bool;
  lastEthicsPromptTime : Z;
}.

(** The [useState] initial values. *)
Definition initialState : AppState :=
  {| activeTab := playground;
     trainingMode := dp;
     aggregator := "fedavg";
     config := Config.mk "diabetes" "fnn" true (Some 1%float);
     status := idle;
     comparison := ComparisonData.mk None None;
     error := None;
     showEthicsPrompt := false;
     lastEthicsPromptTime := 0 |}.

Definition ETHICS_PROMPT_COOLDOWN_MS : Z := 30000.

(** The state setters. *)
Definition setActiveTab (v : Tab) (st : AppState) : AppState :=
  mkApp v (trainingMode st) (aggregator st) (config st) (status st)
        (comparison st) (error st) (showEthicsPrompt st) (lastEthicsPromptTime st).

Definition setTrainingMode (v : TrainingMode) (st : AppState) : AppState :=
  mkApp (activeTab st) v (aggregator st) (config st) (status st)
        (comparison st) (error st) (showEthicsPrompt st) (lastEthicsPromptTime st).

Definition setAggregator (v : string) (st : AppState) : AppState :=
  mkApp (activeTab st) (trainingMode st) v (config st) (status st)
        (comparison st) (error st) (showEthicsPrompt st) (lastEthicsPromptTime st).

Definition setConfig (f : Config.t -> Config.t) (st : AppState) : AppState :=
  mkApp (activeTab st) (trainingMode st) (aggregator st) (f (config st)) (status st)
        (comparison st) (error st) (showEthicsPrompt st) (lastEthicsPromptTime st).

Definition setStatus (v : Status) (st : AppState) : AppState :=
  mkApp (activeTab st) (trainingMode st) (aggregator st) (config st) v
        (comparison st) (error st) (showEthicsPrompt st) (lastEthicsPromptTime st).

Definition setComparison (f : ComparisonData.t -> ComparisonData.t) (st : AppState) : AppState :=
  mkApp (activeTab st) (trainingMode st) (aggregator st) (config st) (status st)
        (f (comparison st)) (error st) (showEthicsPrompt st) (lastEthicsPromptTime st).

Definition setError (v : option string) (st : AppState) : AppState :=
  mkApp (activeTab st) (trainingMode st) (aggregator st) (config st) (status st)
        (comparison st) v (showEthicsPrompt st) (lastEthicsPromptTime st).

Definition setShowEthicsPrompt (v : bool) (st : AppState) : AppState :=
  mkApp (activeTab st) (trainingMode st) (aggregator st) (config st) (status st)
        (comparison st) (error st) v (lastEthicsPromptTime st).

Definition setLastEthicsPromptTime (v : Z) (st : AppState) : AppState :=
  mkApp (activeTab st) (trainingMode st) (aggregator st) (config st) (status st)
        (comparison st) (error st) (showEthicsPrompt st) v.

(** [prev => ({ ...prev, baseline: result })] and its [private] twin. *)
Definition with_baseline (result : Result.t) (prev : ComparisonData.t) : ComparisonData.t :=
  ComparisonData.mk (Some result) (ComparisonData.private prev).

Definition with_private (result : Result.t) (prev : ComparisonData.t) : ComparisonData.t :=
  ComparisonData.mk (ComparisonData.baseline prev) (Some result).

(** [updateConfig]: [prev => ({ ...prev, ...newConfig })]; the call sites
    pass one field each. *)
Inductive ConfigPatch : Type :=
| patch_sampleDataset (v : string)
| patch_modelType (v : string)
| patch_dpEnabled (v : bool)
| patch_epsilon (v : option float).

Definition updateConfig (newConfig : ConfigPatch) (st : AppState) : AppState :=
  setConfig
    (fun prev =>
       match newConfig with
       | patch_sampleDataset v =>
           Config.mk v (Config.modelType prev) (Config.dpEnabled prev) (Config.epsilon prev)
       | patch_modelType v =>
           Config.mk (Config.sampleDataset prev) v (Config.dpEnabled prev) (Config.epsilon prev)
       | patch_dpEnabled v =>
           Config.mk (Config.sampleDataset prev) (Config.modelType prev) v (Config.epsilon prev)
       | patch_epsilon v =>
           Config.mk (Config.sampleDataset prev) (Config.modelType prev) (Config.dpEnabled prev) v
       end)
    st.

(** ** The aggregator table *)

Record AggregatorOption : Type := mkOption {
  value : string;
  label : string;
  description : string;
  bestFor : string;
}.

Definition aggregatorOptions : list AggregatorOption :=
  [ mkOption "fedavg" "FedAvg"
      "Classic federated averaging across participating clients."
      "Stable, balanced data with similar client sizes.";
    mkOption "fedprox" "FedProx"
      "Adds a proximal term to stabilize training with heterogeneous data."
      "Non-IID data where clients drift from the global objective.";
    mkOption "qffl" "q-FedAvg"
      "Reweights updates to emphasize underperforming clients."
      "Fairness-sensitive setups and skewed performance across clients.";
    mkOption "scaffold" "SCAFFOLD"
      "Uses control variates to reduce client drift during aggregation."
      "Highly non-IID data with client-specific biases.";
    mkOption "fedadam" "FedAdam"
      "Adaptive federated optimization with momentum and adaptive learning rates."
      "Fast convergence and handling diverse client distributions." ].

(** [aggregatorOptions.find((o) => o.value === value)], then the label or
    the value itself. *)
Definition getAggregatorLabel (v : string) : string :=
  match List.find (fun o => String.eqb (value o) v) aggregatorOptions with
  | Some option => label option
  | None => v
  end.

(** The own entries of the object literal [aggregatorMap]. *)
Definition aggregatorMap : gmap string string :=
  <["fedavg" := "FedAvg"]>
  (<["fedprox" := "FedProx"]>
  (<["qffl" := "q-FedAvg"]>
  (<["scaffold" := "SCAFFOLD"]>
  (<["fedadam" := "FedAdam"]> ∅)))).

(** The members a plain object inherits from [Object.prototype]. *)
Definition objectPrototypeMembers : list string :=
  [ "constructor"; "__proto__"; "hasOwnProperty"; "isPrototypeOf";
    "propertyIsEnumerable"; "toLocaleString"; "toString"; "valueOf";
    "__defineGetter__"; "__defineSetter__"; "__lookupGetter__";
    "__lookupSetter__" ].

(** [aggregatorMap[key]] *)
Definition aggregatorMap_get (key : string) : Js MapValue :=
  match aggregatorMap !! key with
  | Some serviceId => Val (Text serviceId)
  | None =>
      if existsb (String.eqb key) objectPrototypeMembers
      then Val (Inherited key)
      else Undefined
  end.

(** [aggregatorMap[aggregator] || 'FedAvg'] *)
Definition backendAggregator (aggregator : string) : MapValue :=
  or_else (aggregatorMap_get aggregator) (Text "FedAvg").

(** [getAggregatorLabel] on whatever sits in an aggregator position: a value
    that is no string equals the [value] of no option and is echoed. *)
Definition getAggregatorLabel_of (v : MapValue) : MapValue :=
  match v with
  | Text s => Text (getAggregatorLabel s)
  | Inherited key => Inherited key
  end.

(** The five identifiers of the selector. *)
Definition aggregatorIds : list string :=
  [ "fedavg"; "fedprox"; "qffl"; "scaffold"; "fedadam" ].

(** ** The evaluation calls *)

(** What the [if (!response.ok)] block throws.  [fallback] is the message
    used when the error response carries no [detail]. *)
Definition thrown_for (fallback : string) (body : ErrorBody) : Thrown :=
  (* await response.json().catch(() => ({ detail: 'Unknown error' })) *)
  let errorData :=
    match body with
    | Unparseable => detailBody "Unknown error"
    | Parsed errorData => errorData
    end in
  (* throw new Error(errorData.detail || fallback) *)
  match json_member "detail" errorData with
  | None => ErrorObject nullReadMessage
  | Some detail =>
      match toString (or_else detail (JString fallback)) with
      | Some message => ErrorObject message
      | None => ErrorObject toPrimitiveMessage
      end
  end.

(** The [try] block of an evaluation call up to [const data = await
    response.json()]: it throws, or binds [data]. *)
Definition response_data (fallback : string) (o : FetchOutcome) : Thrown + Data.t :=
  match o with
  | Rejected e => inl e
  | NotOk body => inl (thrown_for fallback body)
  | OkUnreadable e => inl e
  | Ok data => inr data
  end.

(** [err instanceof Error ? err.message : 'An error occurred'] *)
Definition catch_message (err : Thrown) : string :=
  match err with
  | ErrorObject message => message
  | NotAnError => "An error occurred"
  end.

(** The body sent by [runExperiment(runBaseline)]. *)
Definition experimentRequest (runBaseline : bool) (cfg : Config.t) : Request :=
  let dpEnabledForRun := if runBaseline then false else Config.dpEnabled cfg in
  ExperimentRequest
    (Config.sampleDataset cfg)
    (Config.modelType cfg)
    dpEnabledForRun
    (if dpEnabledForRun then of_option (Config.epsilon cfg) else Null).

(** The [Result] built from the response of a baseline run. *)
Definition baselineResult (data : Data.t) : Result.t :=
  {| Result.baselineAccuracy := or_else (Data.baseline_accuracy data) 0%float;
     Result.privateAccuracy := Undefined;
     Result.accuracyLoss := Undefined;
     Result.f1Score := Data.f1_score data;
     Result.precision := Data.precision data;
     Result.recall := Data.recall data;
     Result.epsilon := Undefined;
     Result.samplesEvaluated := or_else (Data.samples_evaluated data) 0%float;
     Result.modelUsed := or_else (Data.model_used data) "Unknown";
     Result.aggregator := Undefined;
     Result.strategy := Val strategy_dp |}.

(** The [Result] built from the response of a differential-privacy run. *)
Definition privateResult (cfg : Config.t) (data : Data.t) : Result.t :=
  {| Result.baselineAccuracy :=
       or_else (js_or (Data.private_accuracy data) (Data.baseline_accuracy data)) 0%float;
     Result.privateAccuracy := Data.private_accuracy data;
     Result.accuracyLoss := Data.accuracy_loss data;
     Result.f1Score := Data.f1_score data;
     Result.precision := Data.precision data;
     Result.recall := Data.recall data;
     Result.epsilon := js_or (Data.epsilon data) (of_option (Config.epsilon cfg));
     Result.samplesEvaluated := or_else (Data.samples_evaluated data) 0%float;
     Result.modelUsed := or_else (Data.model_used data) "Unknown";
     Result.aggregator := Undefined;
     Result.strategy := Val strategy_dp |}.

(** [runExperiment(runBaseline)] up to its [fetch]. *)
Definition runExperiment_start (runBaseline : bool) (snap st : AppState)
  : AppState * Request :=
  (setError None (setStatus running st),
   experimentRequest runBaseline (config snap)).

(** [runExperiment(runBaseline)] from the settling of its [fetch] on. *)
Definition runExperiment_resume (runBaseline : bool) (snap : AppState)
    (o : FetchOutcome) (st : AppState) : AppState :=
  let st :=
    match response_data "Failed to run experiment" o with
    | inr data =>
        if runBaseline
        then setComparison (with_baseline (baselineResult data)) st
        else setComparison (with_private (privateResult (config snap) data)) st
    | inl err => setError (Some (catch_message err)) st
    end in
  setStatus idle st.

(** The body sent by [runFederatedExperiment]. *)
Definition federatedRequest (snap : AppState) : Request :=
  FlExperimentRequest
    (Config.sampleDataset (config snap))
    (Config.modelType (config snap))
    (backendAggregator (aggregator snap)).

(** The [Result] built from the response of a federated run. *)
Definition federatedResult (snap : AppState) (data : Data.t) : Result.t :=
  let aggLabel := getAggregatorLabel (aggregator snap) in
  let baselineAcc := or_else (Data.baseline_accuracy data) 0%float in
  let flAccuracy := or_else (Data.accuracy data) 0%float in
  {| Result.baselineAccuracy := baselineAcc;
     Result.privateAccuracy := Val flAccuracy;
     Result.accuracyLoss :=
       if is_defined (Data.accuracy_loss data)
       then Data.accuracy_loss data
       else Val (baselineAcc - flAccuracy)%float;
     Result.f1Score := Data.f1_score data;
     Result.precision := Data.precision data;
     Result.recall := Data.recall data;
     Result.epsilon := Undefined;
     Result.samplesEvaluated := or_else (Data.samples_evaluated data) 0%float;
     Result.modelUsed := aggLabel ++ " (Federated)";
     Result.aggregator := Val (backendAggregator (aggregator snap));
     Result.strategy := Val strategy_fl |}.

Definition runFederatedExperiment_start (snap st : AppState) : AppState * Request :=
  (setError None (setStatus running st), federatedRequest snap).

Definition runFederatedExperiment_resume (snap : AppState) (o : FetchOutcome)
    (st : AppState) : AppState :=
  let st :=
    match response_data "Failed to run federated experiment" o with
    | inr data => setComparison (with_private (federatedResult snap data)) st
    | inl err => setError (Some (catch_message err)) st
    end in
  setStatus idle st.

(** The earlier variant of the component (second [App] of
    frontend/src/App.tsx): its federated [Result] takes the accuracy loss
    from the [comparison] of the closure. *)
Module Earlier.
Definition federatedResult (snap : AppState) (data : Data.t) : Result.t :=
  let aggLabel := getAggregatorLabel (aggregator snap) in
  let flAccuracy := or_else (Data.accuracy data) 0%float in
  {| Result.baselineAccuracy := flAccuracy;
     Result.privateAccuracy := Val flAccuracy;
     Result.accuracyLoss :=
       match ComparisonData.baseline (comparison snap) with
       | Some baseline => Val (Result.baselineAccuracy baseline - flAccuracy)%float
       | None => Undefined
       end;
     Result.f1Score := Data.f1_score data;
     Result.precision := Data.precision data;
     Result.recall := Data.recall data;
     Result.epsilon := Undefined;
     Result.samplesEvaluated := or_else (Data.samples_evaluated data) 0%float;
     Result.modelUsed := aggLabel ++ " (Federated)";
     Result.aggregator := Val (backendAggregator (aggregator snap));
     Result.strategy := Val strategy_fl |}.

Definition runFederatedExperiment_resume (snap : AppState) (o : FetchOutcome)
    (st : AppState) : AppState :=
  let st :=
    match response_data "Failed to run federated experiment" o with
    | inr data => setComparison (with_private (federatedResult snap data)) st
    | inl err => setError (Some (catch_message err)) st
    end in
  setStatus idle st.
End Earlier.

(** ** The reflection gate *)

(** The test of the [setTimeout] callback: [now - lastEthicsPromptTime >=
    ETHICS_PROMPT_COOLDOWN_MS], on the timestamp the callback reads. *)
Definition shouldPrompt (lastPromptAt now : Z) : bool :=
  now - lastPromptAt >=? ETHICS_PROMPT_COOLDOWN_MS.

(** The callback handed to [setTimeout(..., 3000)].  [lastEthicsPromptTime]
    is the constant of the render [runComparison] was created in. *)
Definition ethicsPromptTimeout (snap : AppState) (now : Z) (st : AppState) : AppState :=
  if shouldPrompt (lastEthicsPromptTime snap) now
  then setLastEthicsPromptTime now (setShowEthicsPrompt true st)
  else st.

Definition handleSurveyRedirect (st : AppState) : AppState :=
  setActiveTab survey (setShowEthicsPrompt false st).

Definition skipSurvey (st : AppState) : AppState :=
  setShowEthicsPrompt false st.

(** ** [runComparison] and the event loop *)

Inductive RunKind : Type := Baseline | Private | Federated.

(** Where an invocation of [runComparison] is parked, with the state of the
    render it closes over. *)
Inductive Suspended : Type :=
| AwaitBaseline (snap : AppState)        (* await runExperiment(true) *)
| AwaitPrivate (snap : AppState)         (* await runExperiment(false) *)
| AwaitFederated (snap : AppState)       (* await runFederatedExperiment() *)
| EthicsTimer (snap : AppState).         (* setTimeout(() => ..., 3000) *)

Definition awaits_fetch (k : Suspended) : bool :=
  match k with
  | EthicsTimer _ => false
  | _ => true
  end.

(** What the orchestrator did, newest first: the calls it issued and the
    settlements it saw, tagged with the invocation they belong to. *)
Inductive Event : Type :=
| Issued (id : nat) (kind : RunKind) (req : Request)
| Settled (id : nat) (kind : RunKind) (o : FetchOutcome).

(** [runComparison] up to its first [await]: both branches begin with
    [runExperiment(true)]. *)
Definition runComparison_start (snap st : AppState) : AppState * Request * Suspended :=
  let st := setComparison (fun _ => ComparisonData.mk None None) st in
  let st := setShowEthicsPrompt false st in
  let st := setError None st in
  let '(st, req) := runExperiment_start true snap st in
  (st, req, AwaitBaseline snap).

(** [runComparison] from the settling of the call it awaits to its next
    [await] or its end: the new state, the events, and where it parks. *)
Definition runComparison_resume (id : nat) (k : Suspended) (o : FetchOutcome)
    (st : AppState) : AppState * list Event * option Suspended :=
  match k with
  | AwaitBaseline snap =>
      let st := runExperiment_resume true snap o st in
      match trainingMode snap with
      | dp =>
          if Config.dpEnabled (config snap)
          then
            let '(st, req) := runExperiment_start false snap st in
            (st, [Issued id Private req; Settled id Baseline o], Some (AwaitPrivate snap))
          else (st, [Settled id Baseline o], None)
      | fl =>
          let '(st, req) := runFederatedExperiment_start snap st in
          (st, [Issued id Federated req; Settled id Baseline o], Some (AwaitFederated snap))
      end
  | AwaitPrivate snap =>
      let st := runExperiment_resume false snap o st in
      (st, [Settled id Private o], Some (EthicsTimer snap))
  | AwaitFederated snap =>
      let st := runFederatedExperiment_resume snap o st in
      (st, [Settled id Federated o], None)
  | EthicsTimer snap => (st, [], Some k)
  end.

Record World : Type := mkWorld {
  app : AppState;
  pending : gmap nat Suspended;
  fresh : nat;
  log : list Event;
}.

Definition initialWorld : World := mkWorld initialState ∅ 0%nat [].

(** The values of the epsilon slider. *)
Definition epsilonValues : list float := [0.5%float; 1%float; 3%float; 10%float].

Inductive Input : Type :=
| ClickRun                               (* the run button's onClick *)
| FetchSettles (id : nat) (o : FetchOutcome)
| TimerFires (id : nat) (now : Z)
| ChooseTrainingMode (m : TrainingMode)  (* the two radio buttons *)
| ToggleDp (checked : bool)
| SlideEpsilon (index : nat)
| ChooseAggregator (v : string)
| ChooseDataset (v : string)
| ChooseModel (v : string)
| ChooseTab (v : Tab)
| TakeSurvey                             (* handleSurveyRedirect *)
| MaybeLater.                            (* skipSurvey *)

Definition on_app (f : AppState -> AppState) (w : World) : World :=
  mkWorld (f (app w)) (pending w) (fresh w) (log w).

(** One turn of the event loop: a handler, a settled [fetch] with the
    continuation of its [await]s, or a timer callback, run to completion. *)
Definition step (w : World) (i : Input) : World :=
  match i with
  | ClickRun =>
      let '(st, req, k) := runComparison_start (app w) (app w) in
      mkWorld st (<[fresh w := k]> (pending w)) (S (fresh w))
              (Issued (fresh w) Baseline req :: log w)
  | FetchSettles id o =>
      match pending w !! id with
      | Some k =>
          if awaits_fetch k
          then
            let '(st, events, next) := runComparison_resume id k o (app w) in
            mkWorld st
                    match next with
                    | Some k' => <[id := k']> (pending w)
                    | None => delete id (pending w)
                    end
                    (fresh w)
                    (events ++ log w)
          else w
      | None => w
      end
  | TimerFires id now =>
      match pending w !! id with
      | Some (EthicsTimer snap) =>
          mkWorld (ethicsPromptTimeout snap now (app w))
                  (delete id (pending w)) (fresh w) (log w)
      | _ => w
      end
  | ChooseTrainingMode dp =>
      on_app (fun st => updateConfig (patch_dpEnabled true) (setTrainingMode dp st)) w
  | ChooseTrainingMode fl =>
      on_app (fun st => updateConfig (patch_dpEnabled false) (setTrainingMode fl st)) w
  | ToggleDp checked => on_app (updateConfig (patch_dpEnabled checked)) w
  | SlideEpsilon index =>
      on_app (updateConfig (patch_epsilon (nth_error epsilonValues index))) w
  | ChooseAggregator v => on_app (setAggregator v) w
  | ChooseDataset v => on_app (updateConfig (patch_sampleDataset v)) w
  | ChooseModel v => on_app (updateConfig (patch_modelType v)) w
  | ChooseTab v => on_app (setActiveTab v) w
  | TakeSurvey => on_app handleSurveyRedirect w
  | MaybeLater => on_app skipSurvey w
  end.

Definition run (w : World) (inputs : list Input) : World :=
  fold_left step inputs w.

(** ** What is rendered *)

Definition isLoading (st : AppState) : bool :=
  match status st with
  | running => true
  | idle => false
  end.

(** [comparison.baseline || comparison.private], as a condition. *)
Definition hasResults (st : AppState) : bool :=
  match ComparisonData.baseline (comparison st), ComparisonData.private (comparison st) with
  | None, None => false
  | _, _ => true
  end.

(** The run button is [disabled={isLoading}]: a click reaches
    [runComparison] only while it is enabled. *)
Definition ui_step (w : World) (i : Input) : World :=
  match i with
  | ClickRun => if isLoading (app w) then w else step w i
  | _ => step w i
  end.

Definition ui_run (w : World) (inputs : list Input) : World :=
  fold_left ui_step inputs w.

(** The ethics prompt modal, [showEthicsPrompt && comparison.private && (...)]:
    not rendered, rendered with the accuracy loss and the epsilon it prints,
    or a render that throws on [comparison.baseline!.baselineAccuracy]. *)
Inductive Modal : Type :=
| NotRendered
| Rendered (accuracyLoss : float) (epsilon : Js float)
| RenderThrows.

Definition ethicsPromptModal (st : AppState) : Modal :=
  if showEthicsPrompt st
  then
    match ComparisonData.private (comparison st) with
    | Some private =>
        match ComparisonData.baseline (comparison st) with
        | Some baseline =>
            Rendered (Result.baselineAccuracy baseline - Result.baselineAccuracy private)%float
                     (Result.epsilon private)
        | None => RenderThrows
        end
    | None => NotRendered
    end
  else NotRendered.

(** ** Reading the log and the table of suspended invocations *)

(** Every differential-privacy call of the log comes right after the
    settlement of the baseline call of the same invocation. *)
Fixpoint private_after_baseline (l : list Event) : bool :=
  match l with
  | [] => true
  | Issued id Private _ :: older =>
      match older with
      | Settled id' Baseline _ :: _ => Nat.eqb id id'
      | _ => false
      end
      && private_after_baseline older
  | _ :: older => private_after_baseline older
  end.

(** The same, and the baseline call has succeeded. *)
Fixpoint private_after_successful_baseline (l : list Event) : bool :=
  match l with
  | [] => true
  | Issued id Private _ :: older =>
      match older with
      | Settled id' Baseline o :: _ => Nat.eqb id id' && succeeded o
      | _ => false
      end
      && private_after_successful_baseline older
  | _ :: older => private_after_successful_baseline older
  end.

(** The calls an invocation has issued, newest first. *)
Definition calls_of (id : nat) (l : list Event) : list (RunKind * Request) :=
  flat_map
    (fun e =>
       match e with
       | Issued id' kind req => if Nat.eqb id id' then [(kind, req)] else []
       | Settled _ _ _ => []
       end)
    l.

(** Inputs that neither start an invocation nor settle a call. *)
Definition is_quiet (i : Input) : bool :=
  match i with
  | ClickRun | FetchSettles _ _ => false
  | _ => true
  end.

(** The input is the firing of a timer. *)
Definition is_timer (i : Input) : bool :=
  match i with
  | TimerFires _ _ => true
  | _ => false
  end.

(** The input is the firing of the timer of invocation [id]. *)
Definition fires (id : nat) (i : Input) : bool :=
  match i with
  | TimerFires id' _ => Nat.eqb id id'
  | _ => false
  end.

(** At most one call is in flight, and the status is [running] while one is. *)
Definition single_flight (w : World) : Prop :=
  (forall id k, pending w !! id = Some k -> awaits_fetch k = true ->
                status (app w) = running)
  /\ (forall id1 k1 id2 k2,
         pending w !! id1 = Some k1 -> awaits_fetch k1 = true ->
         pending w !! id2 = Some k2 -> awaits_fetch k2 = true ->
         id1 = id2).

(** The member of [comparison] a successful response is stored in, and the
    [Result] stored. *)
Definition stored_by (k : Suspended) (data : Data.t) (c : ComparisonData.t) : Prop :=
  match k with
  | AwaitBaseline _ => ComparisonData.baseline c = Some (baselineResult data)
  | AwaitPrivate snap => ComparisonData.private c = Some (privateResult (config snap) data)
  | AwaitFederated snap => ComparisonData.private c = Some (federatedResult snap data)
  | EthicsTimer _ => True
  end.

(** Responses with a few fields present and the others absent. *)
Definition baselineData (accuracy : float) : Data.t :=
  Data.mk (Val accuracy) Undefined Undefined Undefined Undefined
          Undefined Undefined Undefined Undefined Undefined.

Definition privateData (accuracy epsilon : float) : Data.t :=
  Data.mk Undefined (Val accuracy) Undefined Undefined Undefined
          Undefined (Val epsilon) Undefined Undefined Undefined.

Definition federatedData (baseline accuracy : float) : Data.t :=
  Data.mk (Val baseline) Undefined Undefined Undefined Undefined
          Undefined Undefined Undefined Undefined (Val accuracy).


(** The timers and the protected calls of the table belong to submissions
    started in differential-privacy mode with privacy enabled. *)
Definition timers_of_private_runs (w : World) : Prop :=
  forall id snap,
    pending w !! id = Some (EthicsTimer snap)
    \/ pending w !! id = Some (AwaitPrivate snap) ->
    trainingMode snap = dp /\ Config.dpEnabled (config snap) = true.

(** The call an invocation awaits is its last one. *)
Definition awaits_last_call (k : Suspended) : bool :=
  match k with
  | AwaitBaseline snap =>
      match trainingMode snap with
      | dp => negb (Config.dpEnabled (config snap))
      | fl => false
      end
  | AwaitPrivate _ | AwaitFederated _ => true
  | EthicsTimer _ => false
  end.


Definition fallback_of (k : Suspended) : string :=
  match k with
  | AwaitFederated _ => "Failed to run federated experiment"
  | _ => "Failed to run experiment"
  end.

(** Where a submission of two calls parks while its second call is in
    flight, and the call it has issued. *)
Definition protected_of (snap : AppState) : Suspended :=
  match trainingMode snap with
  | dp => AwaitPrivate snap
  | fl => AwaitFederated snap
  end.

Definition protected_call (id : nat) (snap : AppState) : Event :=
  match trainingMode snap with
  | dp => Issued id Private (experimentRequest false (config snap))
  | fl => Issued id Federated (federatedRequest snap)
  end.

(** What a call that fails leaves in [error]. *)
Definition failureMessage (fallback : string) (o : FetchOutcome) : option string :=
  match response_data fallback o with
  | inl err => Some (catch_message err)
  | inr _ => None
  end.

(** The [detail] of an error body is a string, or there is none. *)
Definition detail_is_text (body : ErrorBody) : bool :=
  match body with
  | Unparseable => true
  | Parsed errorData =>
      match json_member "detail" errorData with
      | Some (Val (JString _)) | Some Undefined | Some Null => true
      | _ => false
      end
  end.

(** ** The center panel, the result cards and the error box *)



(** The number printed as the accuracy of a protected card,
    [privateAccuracy?.toFixed(2) || baselineAccuracy.toFixed(2)]: the text
    of any number is truthy. *)
Definition cardAccuracy (r : Result.t) : float :=
  match Result.privateAccuracy r with
  | Val x => x
  | Undefined | Null => Result.baselineAccuracy r
  end.

(** The number printed as the loss of a protected card,
    [baseline.baselineAccuracy - (private.privateAccuracy ||
    private.baselineAccuracy)]. *)
Definition cardLoss (baseline private : Result.t) : float :=
  (Result.baselineAccuracy baseline
   - or_else (Result.privateAccuracy private) (Result.baselineAccuracy private))%float.

(** One of the small metrics of a card,
    [v !== undefined ? `${v.toFixed(2)}%` : 'N/A']: [null] has no [toFixed]. *)
Inductive Cell : Type :=
| NotAvailable
| Percent (x : float)
| CellThrows.

Definition metricCell (v : Js float) : Cell :=
  match v with
  | Undefined => NotAvailable
  | Null => CellThrows
  | Val x => Percent x
  end.

Definition cell_renders (c : Cell) : bool :=
  match c with
  | CellThrows => false
  | _ => true
  end.

(** The three small metrics of a card render. *)
Definition cardRenders (r : Result.t) : bool :=
  forallb (fun v => cell_renders (metricCell v))
          [Result.f1Score r; Result.precision r; Result.recall r].

(** The cards the markup of the results grid lists, in its order.  Which
    protected card is listed depends on the training mode and configuration
    of the current state. *)
Inductive Card : Type :=
| BaselineCard (r : Result.t)
| PrivateCard (r : Result.t)
| FederatedCard (title : MapValue) (r : Result.t)
| EnableDpHint.

Definition comparisonGrid (st : AppState) : list Card :=
  let baseline := ComparisonData.baseline (comparison st) in
  let private := ComparisonData.private (comparison st) in
  ((match baseline with
    | Some b => [BaselineCard b]
    | None => []
    end)
   ++ (match private, trainingMode st with
       | Some p, dp => if Config.dpEnabled (config st) then [PrivateCard p] else []
       | _, _ => []
       end)
   ++ (match private, trainingMode st with
       | Some p, fl =>
           [FederatedCard
              (getAggregatorLabel_of
                 (or_else (Result.aggregator p) (Text (aggregator st))))
              p]
       | _, _ => []
       end)
   ++ (match baseline, trainingMode st with
       | Some _, dp => if Config.dpEnabled (config st) then [] else [EnableDpHint]
       | _, _ => []
       end))%list.

(** The title of the federated card is a React child: a string is drawn, a
    function is skipped, and an object, which is what [__proto__] yields,
    makes the render throw. *)
Definition titleRenders (title : MapValue) : bool :=
  match title with
  | Text _ => true
  | Inherited key => negb (String.eqb key "__proto__")
  end.

(** Drawing a card does not throw. *)
Definition cardDraws (c : Card) : bool :=
  match c with
  | BaselineCard r | PrivateCard r => cardRenders r
  | FederatedCard title r => titleRenders title && cardRenders r
  | EnableDpHint => true
  end.

(** The results grid is part of the page:
    [activeTab === 'playground'] and [hasResults && !isLoading]. *)
Definition drawsGrid (st : AppState) : bool :=
  match activeTab st with
  | playground => hasResults st && negb (isLoading st)
  | _ => false
  end.

(** Rendering the component does not throw.  The markup can throw in the
    modal, on a null baseline, and in the cards of the grid.  A render that
    throws unmounts the component, and nothing is on screen. *)
Definition pageRenders (st : AppState) : bool :=
  match ethicsPromptModal st with
  | RenderThrows => false
  | _ => if drawsGrid st then forallb cardDraws (comparisonGrid st) else true
  end.

(** The cards on screen. *)
Definition resultCards (st : AppState) : list Card :=
  if pageRenders st && drawsGrid st then comparisonGrid st else [].


(** The error box is on screen: [{error && (...)}] in the left panel of the
    playground tab; the empty string is falsy. *)
Definition showsErrorBox (st : AppState) : bool :=
  pageRenders st
  && match activeTab st, error st with
     | playground, Some message => negb (String.eqb message "")
     | _, _ => false
     end.

(** A condition on [comparison] under which the component renders whatever
    the rest of the state is: the cards of the [Result]s it holds draw, with
    any title the federated card may take, and a protected [Result] comes
    with a baseline one. *)
Definition comparisonDraws (c : ComparisonData.t) : bool :=
  match ComparisonData.baseline c, ComparisonData.private c with
  | None, None => true
  | Some b, None => cardRenders b
  | Some b, Some p =>
      cardRenders b && cardRenders p
      && match Result.aggregator p with
         | Val title => titleRenders title
         | Undefined | Null => true
         end
  | None, Some _ => false
  end.

(** The page renders in every state a run goes through. *)
Fixpoint rendersThroughout (w : World) (inputs : list Input) : bool :=
  pageRenders (app w)
  && match inputs with
     | [] => true
     | i :: rest => rendersThroughout (step w i) rest
     end.

(** The position of the epsilon slider,
    [[0.5, 1.0, 3.0, 10.0].indexOf(config.epsilon || 1.0)]: strict equality
    of numbers, [-1] when absent. *)
Fixpoint indexOf_from (x : float) (l : list float) (i : Z) : Z :=
  match l with
  | [] => -1
  | y :: rest => if PrimFloat.eqb y x then i else indexOf_from x rest (i + 1)
  end.

Definition sliderValue (cfg : Config.t) : Z :=
  indexOf_from (or_else (of_option (Config.epsilon cfg)) 1%float) epsilonValues 0.

(** The slider has [min="0" max="3" step="1"]. *)
Definition slider_in_range (i : Input) : bool :=
  match i with
  | SlideEpsilon index => Nat.ltb index 4
  | _ => true
  end.

(** Inputs that come from the user, as opposed to the network and timers. *)
Definition is_user_input (i : Input) : bool :=
  match i with
  | FetchSettles _ _ | TimerFires _ _ => false
  | _ => true
  end.

(** ** The ethics questions *)

(** What [getEthicsQuestions] interpolates: the accuracy loss before
    [toFixed(2)] ([None] stands for the text ['0']) and the epsilon,
    [comparison.private?.epsilon || config.epsilon]. *)
Definition ethicsAccuracyLoss (st : AppState) : option float :=
  match ComparisonData.baseline (comparison st), ComparisonData.private (comparison st) with
  | Some baseline, Some private =>
      Some (Result.baselineAccuracy baseline - Result.baselineAccuracy private)%float
  | _, _ => None
  end.

Definition ethicsEpsilon (st : AppState) : Js float :=
  js_or
    match ComparisonData.private (comparison st) with
    | Some private => Result.epsilon private
    | None => Undefined
    end
    (of_option (Config.epsilon (config st))).

(** The [id]s of the questions [getEthicsQuestions] returns. *)
Definition ethicsQuestionIds : list string :=
  [ "usecase"; "acceptable_loss"; "transparency" ].

Record EthicsResponse : Type := mkResponse {
  questionId : string;
  answer : string;
}.

(** The states [ethicsResponses] and [currentQuestion]. *)
Record Quiz : Type := mkQuiz {
  ethicsResponses : list EthicsResponse;
  currentQuestion : nat;
}.

Definition initialQuiz : Quiz := mkQuiz [] 0.

(** [handleEthicsAnswer]: [None] when [questions[currentQuestion]] is
    undefined and reading its [id] throws. *)
Definition handleEthicsAnswer (a : string) (q : Quiz) (st : AppState)
  : option (Quiz * AppState) :=
  match nth_error ethicsQuestionIds (currentQuestion q) with
  | None => None
  | Some id =>
      let responses := (ethicsResponses q ++ [mkResponse id a])%list in
      if Nat.ltb (currentQuestion q) (length ethicsQuestionIds - 1)
      then Some (mkQuiz responses (currentQuestion q + 1), st)
      else Some (mkQuiz responses (currentQuestion q), setShowEthicsPrompt false st)
  end.

Definition skipEthicsQuestion (q : Quiz) (st : AppState) : Quiz * AppState :=
  if Nat.ltb (currentQuestion q) (length ethicsQuestionIds - 1)
  then (mkQuiz (ethicsResponses q) (currentQuestion q + 1), st)
  else (q, setShowEthicsPrompt false st).

Inductive QuizInput : Type :=
| Answer (a : string)
| Skip.

Definition quiz_step (s : option (Quiz * AppState)) (i : QuizInput)
  : option (Quiz * AppState) :=
  match s with
  | None => None
  | Some (q, st) =>
      match i with
      | Answer a => handleEthicsAnswer a q st
      | Skip => Some (skipEthicsQuestion q st)
      end
  end.

Definition quiz_run (q : Quiz) (st : AppState) (inputs : list QuizInput)
  : option (Quiz * AppState) :=
  fold_left quiz_step inputs (Some (q, st)).

Definition is_answer (i : QuizInput) : bool :=
  match i with
  | Answer _ => true
  | Skip => false
  end.

(** ** The event loop of the earlier variant *)

(** The earlier variant has no cooldown (its timer callback is
    [setShowEthicsPrompt(true)]), builds the federated [Result] of module
    [Earlier], and prints a small metric with [v?.toFixed(4) || 'N/A'] (the
    number without a percent sign, here the same [Cell]).  The rest of its
    orchestration is that of the current variant; its state is [AppState]
    without [lastEthicsPromptTime]. *)
Module EarlierApp.
Definition ethicsPromptTimeout (st : AppState) : AppState :=
  setShowEthicsPrompt true st.

Definition runComparison_resume (id : nat) (k : Suspended) (o : FetchOutcome)
    (st : AppState) : AppState * list Event * option Suspended :=
  match k with
  | AwaitFederated snap =>
      let st := Earlier.runFederatedExperiment_resume snap o st in
      (st, [Settled id Federated o], None)
  | _ => runComparison_resume id k o st
  end.

Definition step (w : World) (i : Input) : World :=
  match i with
  | FetchSettles id o =>
      match pending w !! id with
      | Some k =>
          if awaits_fetch k
          then
            let '(st, events, next) := runComparison_resume id k o (app w) in
            mkWorld st
                    match next with
                    | Some k' => <[id := k']> (pending w)
                    | None => delete id (pending w)
                    end
                    (fresh w)
                    (events ++ log w)
          else w
      | None => w
      end
  | TimerFires id now =>
      match pending w !! id with
      | Some (EthicsTimer snap) =>
          mkWorld (ethicsPromptTimeout (app w))
                  (delete id (pending w)) (fresh w) (log w)
      | _ => w
      end
  | _ => step w i
  end.

Definition run (w : World) (inputs : list Input) : World :=
  fold_left step inputs w.

Definition metricCell (v : Js float) : Cell :=
  match v with
  | Val x => Percent x
  | Undefined | Null => NotAvailable
  end.

Definition cardRenders (r : Result.t) : bool :=
  forallb (fun v => cell_renders (metricCell v))
          [Result.f1Score r; Result.precision r; Result.recall r].
End EarlierApp.

(** ** The first variant of the component *)

(** The first [App] of frontend/src/App.tsx: one [result], a run with the
    test data, a run with an uploaded file, and four quick-test buttons. *)
Module Simple.

Module Result.
Record t : Type := mk {
  baselineAccuracy : Js float;
  privateAccuracy : Js float;
  accuracyLoss : Js float;
  f1Score : Js float;
  precision : Js float;
  recall : Js float;
  epsilon : Js float;
  samplesEvaluated : Js float;
  modelUsed : Js string;
}.
End Result.

Record UploadInfo : Type := mkUpload {
  fileName : string;
  targetColumn : Js string;
}.

(** The React state, and [selectedFile], the file held by the input that
    [fileInputRef] points to ([fileInputRef.current?.files?.[0]], a file
    being its name): [None] when the input is not mounted or holds no file. *)
Record AppState : Type := mkApp {
  config : Config.t;
  status : Status;
  result : option Result.t;
  error : option string;
  showAdvanced : bool;
  uploadInfo : option UploadInfo;
  selectedFile : option string;
}.

Definition initialState : AppState :=
  {| config := Config.mk "diabetes" "fnn" false (Some 1%float);
     status := idle;
     result := None;
     error := None;
     showAdvanced := false;
     uploadInfo := None;
     selectedFile := None |}.

Definition setConfig (f : Config.t -> Config.t) (st : AppState) : AppState :=
  mkApp (f (config st)) (status st) (result st) (error st)
        (showAdvanced st) (uploadInfo st) (selectedFile st).

Definition setStatus (v : Status) (st : AppState) : AppState :=
  mkApp (config st) v (result st) (error st)
        (showAdvanced st) (uploadInfo st) (selectedFile st).

Definition setResult (v : option Result.t) (st : AppState) : AppState :=
  mkApp (config st) (status st) v (error st)
        (showAdvanced st) (uploadInfo st) (selectedFile st).

Definition setError (v : option string) (st : AppState) : AppState :=
  mkApp (config st) (status st) (result st) v
        (showAdvanced st) (uploadInfo st) (selectedFile st).

Definition setShowAdvanced (v : bool) (st : AppState) : AppState :=
  mkApp (config st) (status st) (result st) (error st)
        v (uploadInfo st) (selectedFile st).

Definition setUploadInfo (v : option UploadInfo) (st : AppState) : AppState :=
  mkApp (config st) (status st) (result st) (error st)
        (showAdvanced st) v (selectedFile st).

Definition setSelectedFile (v : option string) (st : AppState) : AppState :=
  mkApp (config st) (status st) (result st) (error st)
        (showAdvanced st) (uploadInfo st) v.

(** How one [fetch] and the reading of its body end.  An error body that
    cannot be read is not caught here: the error of [response.json()]
    reaches the [catch] of the run. *)
Inductive Outcome : Type :=
| Rejected (e : Thrown)
| NotOkUnreadable (e : Thrown)
| NotOk (errorData : Json)
| OkUnreadable (e : Thrown)
| Ok (data : Data.t).

Definition response_data (o : Outcome) : Thrown + Data.t :=
  match o with
  | Rejected e => inl e
  | NotOkUnreadable e => inl e
  | NotOk errorData => inl (thrown_for "Failed to run experiment" (Parsed errorData))
  | OkUnreadable e => inl e
  | Ok data => inr data
  end.

(** The [Result] of a response: the fields as they came. *)
Definition resultOf (data : Data.t) : Result.t :=
  {| Result.baselineAccuracy := Data.baseline_accuracy data;
     Result.privateAccuracy := Data.private_accuracy data;
     Result.accuracyLoss := Data.accuracy_loss data;
     Result.f1Score := Data.f1_score data;
     Result.precision := Data.precision data;
     Result.recall := Data.recall data;
     Result.epsilon := Data.epsilon data;
     Result.samplesEvaluated := Data.samples_evaluated data;
     Result.modelUsed := Data.model_used data |}.

(** A value appended to a [FormData]: a file, a string, or the text of a
    boolean or of a number. *)
Inductive FormValue : Type :=
| FileValue (name : string)
| TextValue (s : string)
| BoolText (b : bool)
| NumberText (x : float).

Inductive Call : Type :=
| Json (body : Request)                  (* POST /api/experiment *)
| Upload (form : list (string * FormValue)). (* POST /api/experiment/upload *)

(** [runExperiment] up to its [fetch]: the body is built from the [config]
    of the closure. *)
Definition runExperiment_start (snap st : AppState) : AppState * Call :=
  (setResult None (setError None (setStatus running st)),
   Json (experimentRequest false (config snap))).

(** Either run from the settling of its [fetch] on. *)
Definition run_resume (o : Outcome) (st : AppState) : AppState :=
  let st :=
    match response_data o with
    | inr data => setResult (Some (resultOf data)) st
    | inl err => setError (Some (catch_message err)) st
    end in
  setStatus idle st.

(** The fields [runExperimentWithUpload] appends to its [FormData]. *)
Definition uploadForm (file : string) (cfg : Config.t) (info : option UploadInfo)
  : list (string * FormValue) :=
  ([ ("file", FileValue file);
     ("dataset", TextValue (Config.sampleDataset cfg));
     ("model_type", TextValue (Config.modelType cfg));
     ("dp_enabled", BoolText (Config.dpEnabled cfg)) ]
   ++ (match Config.epsilon cfg with
       | Some e =>
           if Config.dpEnabled cfg && negb (falsy e)
           then [("epsilon", NumberText e)]
           else []
       | None => []
       end)
   ++ (match info with
       | Some (mkUpload _ (Val column)) =>
           if falsy column then [] else [("target_column", TextValue column)]
       | _ => []
       end))%list.

(** [runExperimentWithUpload] up to its [fetch], or to its early return. *)
Definition runExperimentWithUpload_start (snap st : AppState)
  : AppState * option Call :=
  match selectedFile st with
  | None => (setError (Some "Please select a CSV file first") st, None)
  | Some file =>
      (setResult None (setError None (setStatus running st)),
       Some (Upload (uploadForm file (config snap) (uploadInfo snap))))
  end.

(** The object a quick-test button hands to [updateConfig], spread over the
    previous configuration. *)
Inductive Preset : Type :=
| BaselineDiabetes
| DpDiabetes
| BaselineAdult
| DpAdult.

Definition presetConfig (p : Preset) (prev : Config.t) : Config.t :=
  match p with
  | BaselineDiabetes => Config.mk "diabetes" "fnn" false (Config.epsilon prev)
  | DpDiabetes => Config.mk "diabetes" "fnn" true (Some 1%float)
  | BaselineAdult => Config.mk "adult" "lr" false (Config.epsilon prev)
  | DpAdult => Config.mk "adult" "lr" true (Some 3%float)
  end.

Definition handleFileChange (file : option string) (st : AppState) : AppState :=
  match file with
  | Some name => setUploadInfo (Some (mkUpload name Undefined)) st
  | None => setUploadInfo None st
  end.

Definition clearUpload (st : AppState) : AppState :=
  setUploadInfo None (setSelectedFile None st).

(** Where a run is parked. *)
Inductive Suspended : Type :=
| QuickTimer (snap : AppState)           (* setTimeout(runExperiment, 100) *)
| AwaitRun.                              (* the fetch of either run *)

Record World : Type := mkWorld {
  app : AppState;
  pending : gmap nat Suspended;
  fresh : nat;
  log : list Call;                       (* the calls issued, newest first *)
}.

Definition initialWorld : World := mkWorld initialState ∅ 0%nat [].

Inductive Input : Type :=
| QuickTest (p : Preset)
| TimerFires (id : nat)
| ClickRun                               (* Run with Test Data *)
| ClickUpload                            (* Run with Upload *)
| FetchSettles (id : nat) (o : Outcome)
| ChooseDataset (v : string)
| ChooseModel (v : string)
| ToggleDp (checked : bool)
| SlideEpsilon (v : float)               (* parseFloat(e.target.value) *)
| ToggleAdvanced
| SelectFile (file : option string)      (* the change event of the file input *)
| ClearUpload
| TypeTargetColumn (v : string).

Definition on_app (f : AppState -> AppState) (w : World) : World :=
  mkWorld (f (app w)) (pending w) (fresh w) (log w).

Definition start_run (w : World) (started : AppState * Call) : World :=
  mkWorld (fst started) (<[fresh w := AwaitRun]> (pending w)) (S (fresh w))
          (snd started :: log w).

(** One turn of the event loop. *)
Definition step (w : World) (i : Input) : World :=
  match i with
  | QuickTest p =>
      mkWorld (setConfig (presetConfig p) (app w))
              (<[fresh w := QuickTimer (app w)]> (pending w)) (S (fresh w)) (log w)
  | TimerFires id =>
      match pending w !! id with
      | Some (QuickTimer snap) =>
          let '(st, call) := runExperiment_start snap (app w) in
          mkWorld st (<[id := AwaitRun]> (pending w)) (fresh w) (call :: log w)
      | _ => w
      end
  | ClickRun => start_run w (runExperiment_start (app w) (app w))
  | ClickUpload =>
      match runExperimentWithUpload_start (app w) (app w) with
      | (st, Some call) => start_run w (st, call)
      | (st, None) => on_app (fun _ => st) w
      end
  | FetchSettles id o =>
      match pending w !! id with
      | Some AwaitRun =>
          mkWorld (run_resume o (app w)) (delete id (pending w)) (fresh w) (log w)
      | _ => w
      end
  | ChooseDataset v =>
      on_app (setConfig (fun prev =>
                Config.mk v (Config.modelType prev) (Config.dpEnabled prev)
                          (Config.epsilon prev))) w
  | ChooseModel v =>
      on_app (setConfig (fun prev =>
                Config.mk (Config.sampleDataset prev) v (Config.dpEnabled prev)
                          (Config.epsilon prev))) w
  | ToggleDp checked =>
      on_app (setConfig (fun prev =>
                Config.mk (Config.sampleDataset prev) (Config.modelType prev) checked
                          (Config.epsilon prev))) w
  | SlideEpsilon v =>
      on_app (setConfig (fun prev =>
                Config.mk (Config.sampleDataset prev) (Config.modelType prev)
                          (Config.dpEnabled prev) (Some v))) w
  | ToggleAdvanced =>
      (* hiding the advanced fields unmounts the file input *)
      on_app (fun st =>
                if showAdvanced st
                then setSelectedFile None (setShowAdvanced false st)
                else setShowAdvanced true st) w
  | SelectFile file =>
      on_app (fun st => handleFileChange file (setSelectedFile file st)) w
  | ClearUpload => on_app clearUpload w
  | TypeTargetColumn v =>
      on_app (fun st =>
                match uploadInfo st with
                | Some info => setUploadInfo (Some (mkUpload (fileName info) (Val v))) st
                | None => st
                end) w
  end.

Definition isLoading (st : AppState) : bool :=
  match status st with
  | running => true
  | idle => false
  end.

(** The controls that are rendered and enabled: the run and quick-test
    buttons are [disabled={isLoading}], the upload button is rendered with
    [showAdvanced && uploadInfo], the file input and what belongs to it with
    [showAdvanced]. *)
Definition enabled (st : AppState) (i : Input) : bool :=
  match i with
  | QuickTest _ | ClickRun => negb (isLoading st)
  | ClickUpload =>
      negb (isLoading st) && showAdvanced st
      && match uploadInfo st with Some _ => true | None => false end
  | SelectFile _ => showAdvanced st
  | ClearUpload | TypeTargetColumn _ =>
      showAdvanced st && match uploadInfo st with Some _ => true | None => false end
  | SlideEpsilon _ => Config.dpEnabled (config st)
  | _ => true
  end.

Definition ui_step (w : World) (i : Input) : World :=
  if enabled (app w) i then step w i else w.

Definition ui_run (w : World) (inputs : list Input) : World :=
  fold_left ui_step inputs w.

(** The headline metric of the results card,
    [config.dpEnabled ? (result.privateAccuracy ?? result.baselineAccuracy)
    : result.baselineAccuracy], then [.toFixed(2)]: [None] when the value
    has no [toFixed] and the render throws. *)
Definition headlineMetric (cfg : Config.t) (r : Result.t) : option float :=
  let chosen :=
    if Config.dpEnabled cfg
    then match Result.privateAccuracy r with
         | Val x => Val x
         | Undefined | Null => Result.baselineAccuracy r
         end
    else Result.baselineAccuracy r in
  match chosen with
  | Val x => Some x
  | Undefined | Null => None
  end.
End Simple.

(** * Properties *)

(** ** JavaScript values *)

Lemma or_else_js_or {A} `{Falsy A} (a : Js A) (d : A) :
  Val (or_else a d) = js_or a (Val d).
Proof.
  unfold js_or, truthy, or_else.
  destruct a as [| |x]; try reflexivity.
  destruct (falsy x); reflexivity.
Qed.

Lemma js_or_truthy {A} `{Falsy A} (a b : Js A) :
  truthy a = true -> js_or a b = a.
Proof. unfold js_or. intros ->. reflexivity. Qed.

Lemma js_or_falsy {A} `{Falsy A} (a b : Js A) :
  truthy a = false -> js_or a b = b.
Proof. unfold js_or. intros ->. reflexivity. Qed.

Lemma Val_inj {A} (a b : A) : Val a = Val b -> a = b.
Proof.
  intros E.
  change (match Val a with Val x => x | _ => a end = b).
  rewrite E. reflexivity.
Qed.

Lemma float_neq (x y : float) :
  PrimFloat.eqb x y = false -> PrimFloat.eqb y y = true -> x <> y.
Proof. intros Hxy Hyy E. rewrite E in Hxy. congruence. Qed.

(** ** The aggregator table *)

Lemma aggregatorMap_outside (x : string) :
  ~ In x aggregatorIds -> aggregatorMap !! x = None.
Proof.
  intros Hx. unfold aggregatorMap.
  repeat (rewrite lookup_insert_ne; [| intros <-; apply Hx; simpl; tauto]).
  apply lookup_empty.
Qed.

Lemma not_inherited (x : string) :
  ~ In x objectPrototypeMembers ->
  existsb (String.eqb x) objectPrototypeMembers = false.
Proof.
  intros Hx. destruct (existsb _ _) eqn:E; [| reflexivity].
  apply existsb_exists in E. destruct E as (y & Hy & Heq).
  apply String.eqb_eq in Heq. subst y. contradiction.
Qed.

(** C7, as stated, fails: translating [fedavg] to its service identifier
    and applying the display mapping yields [FedAvg], not [fedavg]. *)
Lemma round_trip_loses_user_id :
  In "fedavg" aggregatorIds
  /\ getAggregatorLabel_of (backendAggregator "fedavg") = Text "FedAvg"
  /\ getAggregatorLabel_of (backendAggregator "fedavg") <> Text "fedavg".
Proof.
  split; [simpl; tauto |].
  split; [vm_compute; reflexivity |].
  intros E. vm_compute in E. discriminate E.
Qed.

(** C7, amended: for each of the five methods the service identifier is the
    display label of the user-facing identifier, and the display mapping
    applied to the service identifier echoes it; it never gives back the
    user-facing identifier. *)
Theorem display_echoes_service_id (x : string) :
  In x aggregatorIds ->
  backendAggregator x = Text (getAggregatorLabel x)
  /\ getAggregatorLabel_of (backendAggregator x) = backendAggregator x
  /\ getAggregatorLabel_of (backendAggregator x) <> Text x.
Proof.
  intros Hx. simpl in Hx.
  repeat (destruct Hx as [<- | Hx];
          [ split; [vm_compute; reflexivity |];
            split; [vm_compute; reflexivity |];
            intros E; vm_compute in E; discriminate E |]).
  contradiction.
Qed.

Lemma display_echoes_service_id_witness :
  In "qffl" aggregatorIds
  /\ backendAggregator "qffl" = Text (getAggregatorLabel "qffl")
  /\ getAggregatorLabel_of (backendAggregator "qffl") = backendAggregator "qffl"
  /\ getAggregatorLabel_of (backendAggregator "qffl") <> Text "qffl".
Proof.
  split; [simpl; tauto |].
  apply (display_echoes_service_id "qffl"). simpl; tauto.
Defined.

(** C8, as stated, fails: an identifier outside the table is translated to
    [FedAvg], the federated call is issued with it and no error is set. *)
Lemma unknown_aggregator_is_sent_as_FedAvg :
  ~ In "bogus" aggregatorIds
  /\ backendAggregator "bogus" = Text "FedAvg"
  /\ let w := run initialWorld
                [ ChooseTrainingMode fl; ChooseAggregator "bogus"; ClickRun;
                  FetchSettles 0 (Ok (baselineData 86.5%float)) ] in
     calls_of 0 (log w)
     = [ (Federated, FlExperimentRequest "diabetes" "fnn" (Text "FedAvg"));
         (Baseline, ExperimentRequest "diabetes" "fnn" false Null) ]
     /\ error (app w) = None.
Proof.
  split; [| split; [| split]]; try (vm_compute; reflexivity).
  simpl. intros H. repeat (destruct H as [H | H]; [discriminate H |]). exact H.
Qed.

(** C8, amended: an identifier that is none of the five entries (and no
    member inherited from [Object.prototype]) does not make the translation
    fail; it is translated to [FedAvg], which the federated request carries. *)
Theorem unknown_aggregator_defaults (x : string) (snap : AppState) :
  ~ In x aggregatorIds ->
  ~ In x objectPrototypeMembers ->
  aggregator snap = x ->
  backendAggregator x = Text "FedAvg"
  /\ federatedRequest snap
     = FlExperimentRequest (Config.sampleDataset (config snap))
                           (Config.modelType (config snap)) (Text "FedAvg").
Proof.
  intros Hx Hp Ha.
  assert (E : backendAggregator x = Text "FedAvg").
  { unfold backendAggregator, aggregatorMap_get.
    rewrite (aggregatorMap_outside x Hx), (not_inherited x Hp). reflexivity. }
  split; [exact E |].
  unfold federatedRequest. rewrite Ha, E. reflexivity.
Qed.

Lemma unknown_aggregator_defaults_witness :
  backendAggregator "bogus" = Text "FedAvg"
  /\ federatedRequest (setAggregator "bogus" initialState)
     = FlExperimentRequest "diabetes" "fnn" (Text "FedAvg").
Proof.
  apply (unknown_aggregator_defaults "bogus" (setAggregator "bogus" initialState)).
  - simpl. intros H. repeat (destruct H as [H | H]; [discriminate H |]). exact H.
  - simpl. intros H. repeat (destruct H as [H | H]; [discriminate H |]). exact H.
  - reflexivity.
Defined.

(** ** Runs of the event loop *)

Lemma run_preserves (P : World -> Prop) :
  (forall w i, P w -> P (step w i)) ->
  forall inputs w, P w -> P (run w inputs).
Proof.
  intros Hstep inputs. induction inputs as [|i inputs IH]; intros w Hw.
  - exact Hw.
  - simpl. apply IH, Hstep, Hw.
Qed.

Lemma ui_run_preserves (P : World -> Prop) :
  (forall w i, P w -> P (ui_step w i)) ->
  forall inputs w, P w -> P (ui_run w inputs).
Proof.
  intros Hstep inputs. induction inputs as [|i inputs IH]; intros w Hw.
  - exact Hw.
  - simpl. apply IH, Hstep, Hw.
Qed.

(** ** Equations of the event loop *)

Lemma response_data_failed (fallback : string) (o : FetchOutcome) :
  succeeded o = false -> exists err, response_data fallback o = inl err.
Proof.
  destruct o as [e|body|e|data]; simpl; intros H; try discriminate H; eauto.
Qed.

Lemma step_click (w : World) :
  step w ClickRun
  = mkWorld
      (setError None
         (setStatus running
            (setError None
               (setShowEthicsPrompt false
                  (setComparison (fun _ => ComparisonData.mk None None) (app w))))))
      (<[fresh w := AwaitBaseline (app w)]> (pending w)) (S (fresh w))
      (Issued (fresh w) Baseline (experimentRequest true (config (app w))) :: log w).
Proof. reflexivity. Qed.

Lemma step_settle_baseline_only (w : World) (id : nat) (snap : AppState)
    (o : FetchOutcome) :
  pending w !! id = Some (AwaitBaseline snap) ->
  trainingMode snap = dp ->
  Config.dpEnabled (config snap) = false ->
  step w (FetchSettles id o)
  = mkWorld (runExperiment_resume true snap o (app w))
            (delete id (pending w)) (fresh w) (Settled id Baseline o :: log w).
Proof.
  intros Hk Hmode Hdp. simpl. rewrite Hk. simpl. rewrite Hmode, Hdp. reflexivity.
Qed.

Lemma step_settle_baseline_dp (w : World) (id : nat) (snap : AppState)
    (o : FetchOutcome) :
  pending w !! id = Some (AwaitBaseline snap) ->
  trainingMode snap = dp ->
  Config.dpEnabled (config snap) = true ->
  step w (FetchSettles id o)
  = mkWorld (setError None (setStatus running (runExperiment_resume true snap o (app w))))
            (<[id := AwaitPrivate snap]> (pending w)) (fresh w)
            (Issued id Private (experimentRequest false (config snap))
             :: Settled id Baseline o :: log w).
Proof.
  intros Hk Hmode Hdp. simpl. rewrite Hk. simpl. rewrite Hmode, Hdp. reflexivity.
Qed.

Lemma step_settle_baseline_fl (w : World) (id : nat) (snap : AppState)
    (o : FetchOutcome) :
  pending w !! id = Some (AwaitBaseline snap) ->
  trainingMode snap = fl ->
  step w (FetchSettles id o)
  = mkWorld (setError None (setStatus running (runExperiment_resume true snap o (app w))))
            (<[id := AwaitFederated snap]> (pending w)) (fresh w)
            (Issued id Federated (federatedRequest snap)
             :: Settled id Baseline o :: log w).
Proof.
  intros Hk Hmode. simpl. rewrite Hk. simpl. rewrite Hmode. reflexivity.
Qed.

Lemma step_settle_private (w : World) (id : nat) (snap : AppState) (o : FetchOutcome) :
  pending w !! id = Some (AwaitPrivate snap) ->
  step w (FetchSettles id o)
  = mkWorld (runExperiment_resume false snap o (app w))
            (<[id := EthicsTimer snap]> (pending w)) (fresh w)
            (Settled id Private o :: log w).
Proof. intros Hk. simpl. rewrite Hk. reflexivity. Qed.

Lemma step_settle_federated (w : World) (id : nat) (snap : AppState)
    (o : FetchOutcome) :
  pending w !! id = Some (AwaitFederated snap) ->
  step w (FetchSettles id o)
  = mkWorld (runFederatedExperiment_resume snap o (app w))
            (delete id (pending w)) (fresh w) (Settled id Federated o :: log w).
Proof. intros Hk. simpl. rewrite Hk. reflexivity. Qed.

Lemma step_timer (w : World) (id : nat) (snap : AppState) (now : Z) :
  pending w !! id = Some (EthicsTimer snap) ->
  step w (TimerFires id now)
  = mkWorld (ethicsPromptTimeout snap now (app w))
            (delete id (pending w)) (fresh w) (log w).
Proof. intros Hk. simpl. rewrite Hk. reflexivity. Qed.

Lemma runExperiment_resume_failed (b : bool) (snap : AppState) (o : FetchOutcome)
    (st : AppState) :
  succeeded o = false ->
  comparison (runExperiment_resume b snap o st) = comparison st.
Proof.
  intros Ho. unfold runExperiment_resume.
  destruct (response_data_failed "Failed to run experiment" o Ho) as [err ->].
  reflexivity.
Qed.

Lemma AppState_ext (a b : AppState) :
  activeTab a = activeTab b ->
  trainingMode a = trainingMode b ->
  aggregator a = aggregator b ->
  config a = config b ->
  status a = status b ->
  comparison a = comparison b ->
  error a = error b ->
  showEthicsPrompt a = showEthicsPrompt b ->
  lastEthicsPromptTime a = lastEthicsPromptTime b ->
  a = b.
Proof.
  destruct a, b. cbn. intros. subst. reflexivity.
Qed.

Lemma status_ethicsPromptTimeout (snap : AppState) (now : Z) (st : AppState) :
  status (ethicsPromptTimeout snap now st) = status st.
Proof. unfold ethicsPromptTimeout. destruct (shouldPrompt _ _); reflexivity. Qed.

Lemma comparison_ethicsPromptTimeout (snap : AppState) (now : Z) (st : AppState) :
  comparison (ethicsPromptTimeout snap now st) = comparison st.
Proof. unfold ethicsPromptTimeout. destruct (shouldPrompt _ _); reflexivity. Qed.

(** The table after an entry is replaced or removed holds no call that the
    table before did not hold, except the entry put in. *)
Lemma fetch_of_insert (m : gmap nat Suspended) (id id1 : nat) (k k1 : Suspended) :
  <[id := k]> m !! id1 = Some k1 ->
  (id1 = id /\ k1 = k) \/ (id1 <> id /\ m !! id1 = Some k1).
Proof. rewrite lookup_insert_Some. intuition. Qed.

Lemma fetch_of_delete (m : gmap nat Suspended) (id id1 : nat) (k1 : Suspended) :
  delete id m !! id1 = Some k1 -> id1 <> id /\ m !! id1 = Some k1.
Proof. rewrite lookup_delete_Some. intuition. Qed.

Lemma run_app (w : World) (l1 l2 : list Input) :
  run w (l1 ++ l2) = run (run w l1) l2.
Proof. apply fold_left_app. Qed.

Lemma run_submission (w : World) (q1 q2 : list Input) (i1 i2 : Input) :
  run w (ClickRun :: q1 ++ i1 :: q2 ++ [i2])
  = step (run w (ClickRun :: q1 ++ i1 :: q2)) i2.
Proof.
  change (ClickRun :: q1 ++ i1 :: q2 ++ [i2])
    with ([ClickRun] ++ q1 ++ [i1] ++ q2 ++ [i2])%list.
  change (ClickRun :: q1 ++ i1 :: q2) with ([ClickRun] ++ q1 ++ [i1] ++ q2)%list.
  rewrite !run_app. reflexivity.
Qed.

Lemma run_first_call (w : World) (q1 q2 : list Input) (i1 : Input) :
  run w (ClickRun :: q1 ++ i1 :: q2)
  = run (step (run (step w ClickRun) q1) i1) q2.
Proof.
  change (ClickRun :: q1 ++ i1 :: q2) with ([ClickRun] ++ q1 ++ [i1] ++ q2)%list.
  rewrite !run_app. reflexivity.
Qed.

(** ** Handlers and timers during a submission *)

(** A handler other than the run button's, or a timer, leaves the log, the
    comparison, the status and the error alone; it adds nothing to the table
    of suspended invocations and removes at most the timer that fires; and
    only a timer sets the prompt flag. *)
Lemma quiet_step_keeps (w : World) (i : Input) :
  is_quiet i = true ->
  log (step w i) = log w
  /\ fresh (step w i) = fresh w
  /\ comparison (app (step w i)) = comparison (app w)
  /\ status (app (step w i)) = status (app w)
  /\ error (app (step w i)) = error (app w)
  /\ (forall id k, pending (step w i) !! id = Some k -> pending w !! id = Some k)
  /\ (forall id k, pending w !! id = Some k ->
                   awaits_fetch k = true \/ fires id i = false ->
                   pending (step w i) !! id = Some k)
  /\ (showEthicsPrompt (app (step w i)) = true ->
      showEthicsPrompt (app w) = true \/ is_timer i = true).
Proof.
  intros Hq.
  destruct i as [|id' o|id' now|m|b|n|v|v|v|v| |]; try discriminate Hq;
    try (repeat split; auto; fail).
  - (* TimerFires *)
    unfold step.
    destruct (pending w !! id') as [[s|s|s|s]|] eqn:Hk';
      try (repeat split; auto; fail).
    cbn [app pending fresh log].
    split; [reflexivity |]. split; [reflexivity |].
    split; [apply comparison_ethicsPromptTimeout |].
    split; [apply status_ethicsPromptTimeout |].
    split; [unfold ethicsPromptTimeout; destruct (shouldPrompt _ _); reflexivity |].
    split; [intros id k H; apply fetch_of_delete in H as [_ H]; exact H |].
    split; [| intros _; right; reflexivity].
    intros id k Hk Hor.
    rewrite lookup_delete_ne; [exact Hk |].
    intros ->. rewrite Hk in Hk'. injection Hk' as ->.
    destruct Hor as [Hf | Hne]; [discriminate Hf |].
    cbn [fires] in Hne. rewrite Nat.eqb_refl in Hne. discriminate Hne.
  - destruct m; repeat split; auto.
Qed.

(** The same for a sequence of them, for a call in flight. *)
Lemma quiet_run_keeps (quiet : list Input) (w : World) :
  forallb is_quiet quiet = true ->
  log (run w quiet) = log w
  /\ fresh (run w quiet) = fresh w
  /\ comparison (app (run w quiet)) = comparison (app w)
  /\ status (app (run w quiet)) = status (app w)
  /\ error (app (run w quiet)) = error (app w)
  /\ (forall id k, pending (run w quiet) !! id = Some k -> pending w !! id = Some k)
  /\ (forall id k, pending w !! id = Some k -> awaits_fetch k = true ->
                   pending (run w quiet) !! id = Some k)
  /\ (showEthicsPrompt (app (run w quiet)) = true ->
      showEthicsPrompt (app w) = true \/ existsb is_timer quiet = true).
Proof.
  revert w. induction quiet as [|i quiet IH]; intros w Hq.
  - repeat split; auto.
  - simpl in Hq. apply andb_true_iff in Hq as [Hi Hq].
    destruct (quiet_step_keeps w i Hi) as (Hl & Hf & Hc & Hs & He & Hsub & Hkeep & Hflag).
    destruct (IH (step w i) Hq) as (Hl' & Hf' & Hc' & Hs' & He' & Hsub' & Hkeep' & Hflag').
    change (run w (i :: quiet)) with (run (step w i) quiet).
    rewrite Hl', Hf', Hc', Hs', He', Hl, Hf, Hc, Hs, He.
    repeat split; auto.
    intros H. destruct (Hflag' H) as [H1 | H1].
    + destruct (Hflag H1) as [H2 | H2]; [left; exact H2 |].
      right. cbn [existsb]. rewrite H2. reflexivity.
    + right. cbn [existsb]. rewrite H1. apply orb_true_r.
Qed.

(** ** Ordering of the two calls of a differential-privacy submission *)

Lemma step_private_after_baseline (w : World) (i : Input) :
  private_after_baseline (log w) = true ->
  private_after_baseline (log (step w i)) = true.
Proof.
  intros Hw. destruct i as [|id o|id now|m|b|n|v|v|v|v| |]; simpl;
    try exact Hw.
  - destruct (pending w !! id) as [k|]; [| exact Hw].
    destruct k as [snap|snap|snap|snap]; simpl; try exact Hw.
    destruct (trainingMode snap); [destruct (Config.dpEnabled (config snap)) |];
      simpl; rewrite ?Nat.eqb_refl; exact Hw.
  - destruct (pending w !! id) as [[snap|snap|snap|snap]|]; exact Hw.
  - destruct m; exact Hw.
Qed.

(** C1, as stated, fails: the baseline call of a differential-privacy
    submission fails and the protected call is issued all the same. *)
Lemma private_call_after_failed_baseline :
  let failure := NotOk (Parsed (detailBody "Model file not found")) in
  let w := run initialWorld [ClickRun; FetchSettles 0 failure] in
  log w
  = [ Issued 0 Private (ExperimentRequest "diabetes" "fnn" true (Val 1%float));
      Settled 0 Baseline failure;
      Issued 0 Baseline (ExperimentRequest "diabetes" "fnn" false Null) ]
  /\ succeeded failure = false
  /\ private_after_successful_baseline (log w) = false.
Proof. repeat split; vm_compute; reflexivity. Qed.

(** C1, amended: in every run of the orchestrator, from any state of the
    component, a protected differential-privacy call is issued only right
    after the baseline call of the same submission has settled; and when the
    baseline call of a submission started in differential-privacy mode with
    privacy enabled settles, whatever its outcome, success or failure, the
    protected call is issued at once, with the configuration of the
    submission, and the submission waits for it. *)
Theorem private_call_follows_baseline_settlement (st : AppState) (inputs : list Input) :
  private_after_baseline (log (run (mkWorld st ∅ 0%nat []) inputs)) = true
  /\ forall (id : nat) (snap : AppState) (o : FetchOutcome),
       pending (run (mkWorld st ∅ 0%nat []) inputs) !! id = Some (AwaitBaseline snap) ->
       trainingMode snap = dp ->
       Config.dpEnabled (config snap) = true ->
       let w := run (mkWorld st ∅ 0%nat []) inputs in
       let w' := step w (FetchSettles id o) in
       log w'
       = Issued id Private (experimentRequest false (config snap))
         :: Settled id Baseline o :: log w
       /\ pending w' !! id = Some (AwaitPrivate snap)
       /\ private_after_baseline (log w') = true.
Proof.
  assert (Hsafe : forall inputs',
             private_after_baseline (log (run (mkWorld st ∅ 0%nat []) inputs')) = true).
  { intros inputs'.
    apply (run_preserves (fun w => private_after_baseline (log w) = true)).
    - exact step_private_after_baseline.
    - reflexivity. }
  split; [apply Hsafe |].
  intros id snap o Hk Hmode Hdp w w'.
  assert (E : w' = mkWorld
                     (setError None
                        (setStatus running (runExperiment_resume true snap o (app w))))
                     (<[id := AwaitPrivate snap]> (pending w)) (fresh w)
                     (Issued id Private (experimentRequest false (config snap))
                      :: Settled id Baseline o :: log w)).
  { change (pending w !! id = Some (AwaitBaseline snap)) in Hk.
    unfold w'. clearbody w. unfold step. rewrite Hk.
    cbn [awaits_fetch runComparison_resume]. rewrite Hmode, Hdp. reflexivity. }
  split; [rewrite E; reflexivity |].
  split; [rewrite E; apply lookup_insert_eq |].
  apply step_private_after_baseline, Hsafe.
Qed.

(** A failing baseline call among the outcomes: the protected call goes out
    with the configured epsilon. *)
Lemma private_call_follows_baseline_settlement_witness :
  let failure := Rejected (ErrorObject "Failed to fetch") in
  let w := run (mkWorld initialState ∅ 0%nat []) [ClickRun] in
  let w' := step w (FetchSettles 0 failure) in
  succeeded failure = false
  /\ log w'
     = [ Issued 0 Private (ExperimentRequest "diabetes" "fnn" true (Val 1%float));
         Settled 0 Baseline failure;
         Issued 0 Baseline (ExperimentRequest "diabetes" "fnn" false Null) ]
  /\ pending w' !! 0%nat = Some (AwaitPrivate initialState).
Proof.
  split; [reflexivity |].
  destruct (private_call_follows_baseline_settlement initialState [ClickRun])
    as [_ Hlive].
  destruct (Hlive 0%nat initialState (Rejected (ErrorObject "Failed to fetch")))
    as (Hlog & Hpending & _).
  - vm_compute. reflexivity.
  - reflexivity.
  - reflexivity.
  - split; [| exact Hpending].
    etransitivity; [exact Hlog | vm_compute; reflexivity].
Defined.

(** ** One submission at a time *)

Lemma single_flight_on_app (f : AppState -> AppState) (w : World) :
  (forall st, status (f st) = status st) ->
  single_flight w -> single_flight (on_app f w).
Proof.
  intros Hf [Hrun Huniq]. split; simpl.
  - intros id k Hk Hfetch. rewrite Hf. eauto.
  - exact Huniq.
Qed.

Lemma step_settle_single_flight (w : World) (id : nat) (o : FetchOutcome) :
  single_flight w -> single_flight (step w (FetchSettles id o)).
Proof.
  intros [Hrun Huniq]. simpl.
  destruct (pending w !! id) as [k|] eqn:Hk; [| split; assumption].
  destruct (awaits_fetch k) eqn:Hfetch; [| split; assumption].
  assert (Hall : forall id1 k1, pending w !! id1 = Some k1 ->
                                awaits_fetch k1 = true -> id1 = id)
    by (intros id1 k1 H1 F1; exact (Huniq id1 k1 id k H1 F1 Hk Hfetch)).
  destruct k as [snap|snap|snap|snap]; simpl; [| | |discriminate Hfetch].
  - destruct (trainingMode snap); [destruct (Config.dpEnabled (config snap)) |];
      simpl; split; simpl.
    + reflexivity.
    + intros id1 k1 id2 k2 H1 F1 H2 F2.
      apply fetch_of_insert in H1, H2.
      destruct H1 as [[-> _]|[_ H1]], H2 as [[-> _]|[_ H2]];
        try reflexivity; eauto using eq_sym.
    + intros id1 k1 H1 F1. apply fetch_of_delete in H1 as [Hne H1].
      exfalso. eauto.
    + intros id1 k1 id2 k2 H1 F1. apply fetch_of_delete in H1 as [Hne H1].
      exfalso. eauto.
    + reflexivity.
    + intros id1 k1 id2 k2 H1 F1 H2 F2.
      apply fetch_of_insert in H1, H2.
      destruct H1 as [[-> _]|[_ H1]], H2 as [[-> _]|[_ H2]];
        try reflexivity; eauto using eq_sym.
  - split; simpl.
    + intros id1 k1 H1 F1. apply fetch_of_insert in H1 as [[_ ->]|[Hne H1]].
      * discriminate F1.
      * exfalso. eauto.
    + intros id1 k1 id2 k2 H1 F1. apply fetch_of_insert in H1 as [[_ ->]|[Hne H1]].
      * discriminate F1.
      * exfalso. eauto.
  - split; simpl.
    + intros id1 k1 H1 F1. apply fetch_of_delete in H1 as [Hne H1].
      exfalso. eauto.
    + intros id1 k1 id2 k2 H1 F1. apply fetch_of_delete in H1 as [Hne H1].
      exfalso. eauto.
Qed.

Lemma ui_step_single_flight (w : World) (i : Input) :
  single_flight w -> single_flight (ui_step w i).
Proof.
  intros Hw.
  destruct i as [|id o|id now|m|b|n|v|v|v|v| |];
    try (apply single_flight_on_app; [reflexivity | exact Hw]).
  - (* ClickRun *)
    unfold ui_step, isLoading.
    destruct (status (app w)) eqn:Hst; [| exact Hw].
    destruct Hw as [Hrun Huniq].
    assert (Hnone : forall id1 k1, pending w !! id1 = Some k1 ->
                                   awaits_fetch k1 = true -> False).
    { intros id1 k1 H1 F1. specialize (Hrun id1 k1 H1 F1). congruence. }
    split; simpl.
    + reflexivity.
    + intros id1 k1 id2 k2 H1 F1 H2 F2.
      apply fetch_of_insert in H1, H2.
      destruct H1 as [[-> _]|[_ H1]], H2 as [[-> _]|[_ H2]];
        try reflexivity; exfalso; eauto.
  - apply step_settle_single_flight, Hw.
  - (* TimerFires *)
    destruct Hw as [Hrun Huniq]. simpl.
    destruct (pending w !! id) as [[snap|snap|snap|snap]|] eqn:Hk;
      try (split; assumption).
    split; simpl.
    + intros id1 k1 H1 F1. apply fetch_of_delete in H1 as [_ H1].
      rewrite status_ethicsPromptTimeout. eauto.
    + intros id1 k1 id2 k2 H1 F1 H2 F2.
      apply fetch_of_delete in H1 as [_ H1], H2 as [_ H2]. eauto.
  - destruct m; (apply single_flight_on_app; [reflexivity | exact Hw]).
Qed.

Lemma initialWorld_single_flight : single_flight initialWorld.
Proof.
  split; simpl.
  - intros id k Hk. rewrite lookup_empty in Hk. discriminate Hk.
  - intros id1 k1 id2 k2 Hk. rewrite lookup_empty in Hk. discriminate Hk.
Qed.

Lemma settled_result_is_stored (w : World) (id : nat) (k : Suspended) (data : Data.t) :
  pending w !! id = Some k ->
  stored_by k data (comparison (app (step w (FetchSettles id (Ok data))))).
Proof.
  intros Hk. simpl. rewrite Hk.
  destruct k as [snap|snap|snap|snap]; simpl; [| reflexivity | reflexivity | exact I].
  destruct (trainingMode snap); [destruct (Config.dpEnabled (config snap)) |];
    reflexivity.
Qed.

(** C2, as stated, fails: [runComparison] itself has no guard and no epoch.
    Invoked a second time while the first call is in flight, it leaves two
    submissions active, and the result of the first, arriving later, is
    stored in [comparison]. *)
Lemma superseded_result_is_applied :
  let first := baselineData 86.5%float in
  let w := run initialWorld [ClickRun; ClickRun] in
  let w' := step w (FetchSettles 0 (Ok first)) in
  awaits_fetch <$> pending w !! 0%nat = Some true
  /\ awaits_fetch <$> pending w !! 1%nat = Some true
  /\ ComparisonData.baseline (comparison (app w')) = Some (baselineResult first)
  /\ awaits_fetch <$> pending w' !! 0%nat = Some true
  /\ awaits_fetch <$> pending w' !! 1%nat = Some true.
Proof. repeat split; vm_compute; reflexivity. Qed.

(** C2, amended: the run button is disabled while a call is in flight, so in
    every run driven through the interface a submit attempted before the
    call in flight resolves is ignored, at most one call is in flight, and
    the result of that call, when it arrives, is stored in [comparison]:
    there are no epochs and nothing is discarded. *)
Theorem submit_waits_for_call_in_flight (inputs : list Input) (id : nat) (k : Suspended) :
  let w := ui_run initialWorld inputs in
  pending w !! id = Some k ->
  awaits_fetch k = true ->
  ui_step w ClickRun = w
  /\ (forall id' k', pending w !! id' = Some k' -> awaits_fetch k' = true -> id' = id)
  /\ (forall data,
         stored_by k data (comparison (app (ui_step w (FetchSettles id (Ok data)))))).
Proof.
  intros w Hk Hfetch.
  assert (Hw : single_flight w).
  { apply (ui_run_preserves single_flight).
    - exact ui_step_single_flight.
    - exact initialWorld_single_flight. }
  destruct Hw as [Hrun Huniq].
  split; [| split].
  - unfold ui_step, isLoading. rewrite (Hrun id k Hk Hfetch). reflexivity.
  - intros id' k' Hk' Hfetch'. exact (Huniq id' k' id k Hk' Hfetch' Hk Hfetch).
  - intros data. apply settled_result_is_stored, Hk.
Qed.

Lemma submit_waits_for_call_in_flight_witness :
  let w := ui_run initialWorld [ClickRun] in
  pending w !! 0%nat = Some (AwaitBaseline initialState)
  /\ ui_step w ClickRun = w
  /\ (forall id' k', pending w !! id' = Some k' -> awaits_fetch k' = true -> id' = 0%nat)
  /\ (forall data,
         stored_by (AwaitBaseline initialState) data
           (comparison (app (ui_step w (FetchSettles 0 (Ok data)))))).
Proof.
  split.
  - vm_compute. reflexivity.
  - apply (submit_waits_for_call_in_flight [ClickRun] 0%nat (AwaitBaseline initialState)).
    + vm_compute. reflexivity.
    + reflexivity.
Defined.

(** ** The reflection gate *)

Lemma shouldPrompt_spec (T now : Z) :
  shouldPrompt T now = true <-> now - T >= 30000.
Proof.
  unfold shouldPrompt, ETHICS_PROMPT_COOLDOWN_MS.
  rewrite Z.geb_leb, Z.leb_le. lia.
Qed.

(** The gate on the timestamp its callback reads: when the timer of a
    submission fires, with [T] the last-prompt timestamp of the render the
    submission started in, the prompt fires iff [now - T >= 30000] (not at
    [T + 29999], but at [T + 30000]); on firing the prompt flag is set and
    the last-prompt timestamp becomes [now], otherwise the state is left as
    it is. *)
Lemma gate_on_closure_timestamp (w : World) (id : nat) (snap : AppState) (now : Z) :
  pending w !! id = Some (EthicsTimer snap) ->
  let T := lastEthicsPromptTime snap in
  let st' := app (step w (TimerFires id now)) in
  (shouldPrompt T now = true <-> now - T >= 30000)
  /\ shouldPrompt T (T + 29999) = false
  /\ shouldPrompt T (T + 30000) = true
  /\ (now - T >= 30000 -> showEthicsPrompt st' = true /\ lastEthicsPromptTime st' = now)
  /\ (now - T < 30000 -> st' = app w).
Proof.
  intros Hk T st'.
  assert (Est : st' = ethicsPromptTimeout snap now (app w)).
  { unfold st'. rewrite (step_timer w id snap now Hk). reflexivity. }
  split; [apply shouldPrompt_spec |].
  split.
  { destruct (shouldPrompt T (T + 29999)) eqn:E; [| reflexivity].
    apply shouldPrompt_spec in E. lia. }
  split; [apply shouldPrompt_spec; lia |].
  split.
  - intros Hge. apply shouldPrompt_spec in Hge.
    rewrite Est. unfold ethicsPromptTimeout. fold T. rewrite Hge. split; reflexivity.
  - intros Hlt. rewrite Est. unfold ethicsPromptTimeout. fold T.
    destruct (shouldPrompt T now) eqn:E; [| reflexivity].
    apply shouldPrompt_spec in E. lia.
Qed.

(** Starting a submission and the settling of a call leave the training
    mode, the configuration and the last-prompt timestamp alone. *)
Lemma call_step_keeps (w : World) (i : Input) :
  is_quiet i = false ->
  trainingMode (app (step w i)) = trainingMode (app w)
  /\ config (app (step w i)) = config (app w)
  /\ lastEthicsPromptTime (app (step w i)) = lastEthicsPromptTime (app w).
Proof.
  intros Hi.
  destruct i as [|id o|id now|m|b|n|v|v|v|v| |]; try discriminate Hi.
  - repeat split.
  - unfold step. destruct (pending w !! id) as [k|]; [| repeat split].
    destruct k as [snap|snap|snap|snap]; cbn [awaits_fetch runComparison_resume];
      try (repeat split; fail).
    + unfold runExperiment_resume.
      destruct (trainingMode snap); [destruct (Config.dpEnabled (config snap)) |];
        destruct (response_data _ o); repeat split.
    + unfold runExperiment_resume. destruct (response_data _ o); repeat split.
    + unfold runFederatedExperiment_resume. destruct (response_data _ o); repeat split.
Qed.

Lemma ui_step_click_idle (w : World) :
  status (app w) = idle -> ui_step w ClickRun = step w ClickRun.
Proof. intros H. unfold ui_step, isLoading. rewrite H. reflexivity. Qed.

(** A differential-privacy submission from its click to the parking of its
    timer: the timer holds the state of the render the submission started
    in, the status is idle again, and the training mode, the configuration
    and the last-prompt timestamp are as they were. *)
Lemma private_submission_parks_timer (w : World) (o1 o2 : FetchOutcome) :
  trainingMode (app w) = dp ->
  Config.dpEnabled (config (app w)) = true ->
  let w3 := run w [ClickRun; FetchSettles (fresh w) o1; FetchSettles (fresh w) o2] in
  pending w3
  = <[fresh w := EthicsTimer (app w)]>
      (<[fresh w := AwaitPrivate (app w)]>
         (<[fresh w := AwaitBaseline (app w)]> (pending w)))
  /\ fresh w3 = S (fresh w)
  /\ status (app w3) = idle
  /\ trainingMode (app w3) = trainingMode (app w)
  /\ config (app w3) = config (app w)
  /\ lastEthicsPromptTime (app w3) = lastEthicsPromptTime (app w).
Proof.
  intros Hmode Hdp w3.
  pose (wa := step w ClickRun).
  pose (wb := step wa (FetchSettles (fresh w) o1)).
  assert (Ha : pending wa !! fresh w = Some (AwaitBaseline (app w))).
  { unfold wa. rewrite step_click. apply lookup_insert_eq. }
  assert (Eb := step_settle_baseline_dp wa (fresh w) (app w) o1 Ha Hmode Hdp).
  fold wb in Eb.
  assert (Hb : pending wb !! fresh w = Some (AwaitPrivate (app w)))
    by (rewrite Eb; apply lookup_insert_eq).
  assert (Ec := step_settle_private wb (fresh w) (app w) o2 Hb).
  change (step wb (FetchSettles (fresh w) o2)) with w3 in Ec.
  destruct (call_step_keeps w ClickRun eq_refl) as (Hm1 & Hc1 & Hl1).
  destruct (call_step_keeps wa (FetchSettles (fresh w) o1) eq_refl) as (Hm2 & Hc2 & Hl2).
  destruct (call_step_keeps wb (FetchSettles (fresh w) o2) eq_refl) as (Hm3 & Hc3 & Hl3).
  fold wa in Hm1, Hc1, Hl1. fold wb in Hm2, Hc2, Hl2.
  change (step wb (FetchSettles (fresh w) o2)) with w3 in Hm3, Hc3, Hl3.
  split.
  { rewrite Ec. cbn [pending]. rewrite Eb. cbn [pending]. unfold wa.
    rewrite step_click. reflexivity. }
  split; [rewrite Ec; cbn [fresh]; rewrite Eb; reflexivity |].
  split; [rewrite Ec; reflexivity |].
  split; [rewrite Hm3, Hm2, Hm1; reflexivity |].
  split; [rewrite Hc3, Hc2, Hc1; reflexivity |].
  rewrite Hl3, Hl2, Hl1. reflexivity.
Qed.

(** C3, at its failing input, for every state and every clock: a second
    differential-privacy submission is started through the interface before
    the timer of the first has fired, so both timers hold the last-prompt
    timestamp [T] from before the first prompt.  The first timer fires at
    [now1] with the cooldown elapsed since [T]: the prompt is shown and the
    last-prompt timestamp becomes [now1].  The user closes the prompt.  The
    second timer fires at any [now2 >= now1], one millisecond or seven
    seconds later: its callback tests [now2 - T], not [now2 - now1], and
    the prompt is shown again. *)
Theorem cooldown_not_kept_between_prompts
    (w : World) (o1 o2 o3 o4 : FetchOutcome) (now1 now2 : Z) :
  status (app w) = idle ->
  trainingMode (app w) = dp ->
  Config.dpEnabled (config (app w)) = true ->
  now1 - lastEthicsPromptTime (app w) >= ETHICS_PROMPT_COOLDOWN_MS ->
  now1 <= now2 ->
  let id1 := fresh w in
  let id2 := S (fresh w) in
  let w1 := ui_run w [ ClickRun; FetchSettles id1 o1; FetchSettles id1 o2;
                       ClickRun; FetchSettles id2 o3; FetchSettles id2 o4;
                       TimerFires id1 now1; MaybeLater ] in
  let w2 := ui_step w1 (TimerFires id2 now2) in
  lastEthicsPromptTime (app w1) = now1
  /\ showEthicsPrompt (app w1) = false
  /\ showEthicsPrompt (app w2) = true
  /\ lastEthicsPromptTime (app w2) = now2.
Proof.
  intros Hidle Hmode Hdp Hnow1 Hle id1 id2 w1 w2.
  unfold id1, id2 in *. clear id1 id2.
  pose (wc := run w [ClickRun; FetchSettles (fresh w) o1; FetchSettles (fresh w) o2]).
  destruct (private_submission_parks_timer w o1 o2 Hmode Hdp)
    as (Hpc & Hfc & Hsc & Hmc & Hcc & Hlc).
  fold wc in Hpc, Hfc, Hsc, Hmc, Hcc, Hlc.
  pose (wf := run wc [ClickRun; FetchSettles (S (fresh w)) o3;
                      FetchSettles (S (fresh w)) o4]).
  assert (Hmode' : trainingMode (app wc) = dp) by (rewrite Hmc; exact Hmode).
  assert (Hdp' : Config.dpEnabled (config (app wc)) = true) by (rewrite Hcc; exact Hdp).
  destruct (private_submission_parks_timer wc o3 o4 Hmode' Hdp')
    as (Hpf & _ & _ & _ & _ & _).
  rewrite Hfc in Hpf. fold wf in Hpf.
  assert (Hne : fresh w <> S (fresh w)) by lia.
  assert (Hk1 : pending wf !! fresh w = Some (EthicsTimer (app w))).
  { rewrite Hpf, !lookup_insert_ne by (intros E; apply Hne; symmetry; exact E).
    rewrite Hpc. apply lookup_insert_eq. }
  assert (Hk2 : pending wf !! S (fresh w) = Some (EthicsTimer (app wc)))
    by (rewrite Hpf; apply lookup_insert_eq).
  assert (Egate1 : shouldPrompt (lastEthicsPromptTime (app w)) now1 = true)
    by (apply shouldPrompt_spec; exact Hnow1).
  assert (Egate2 : shouldPrompt (lastEthicsPromptTime (app wc)) now2 = true).
  { rewrite Hlc. apply shouldPrompt_spec.
    unfold ETHICS_PROMPT_COOLDOWN_MS in Hnow1. lia. }
  assert (Ew1 : w1 = step (step wf (TimerFires (fresh w) now1)) MaybeLater).
  { unfold w1, ui_run. cbn [fold_left].
    rewrite (ui_step_click_idle w Hidle).
    change (ui_step (ui_step (step w ClickRun) (FetchSettles (fresh w) o1))
                    (FetchSettles (fresh w) o2))
      with wc.
    rewrite (ui_step_click_idle wc Hsc). reflexivity. }
  rewrite (step_timer wf (fresh w) (app w) now1 Hk1) in Ew1.
  unfold ethicsPromptTimeout in Ew1. rewrite Egate1 in Ew1.
  assert (Hk2' : pending w1 !! S (fresh w) = Some (EthicsTimer (app wc))).
  { rewrite Ew1. cbn [step on_app pending].
    rewrite lookup_delete_ne by exact Hne. exact Hk2. }
  assert (Ew2 : w2 = step w1 (TimerFires (S (fresh w)) now2)) by reflexivity.
  rewrite (step_timer w1 (S (fresh w)) (app wc) now2 Hk2') in Ew2.
  unfold ethicsPromptTimeout in Ew2. rewrite Egate2 in Ew2.
  split; [rewrite Ew1; reflexivity |].
  split; [rewrite Ew1; reflexivity |].
  split; rewrite Ew2; reflexivity.
Qed.

(** From the initial state, with the clock of a browser: the prompt is
    shown at [1700000003000] and again seven seconds later. *)
Lemma cooldown_not_kept_between_prompts_witness :
  let settled id := FetchSettles id (Ok (baselineData 86.5%float)) in
  let protected id := FetchSettles id (Ok (privateData 84%float 1%float)) in
  let w1 := ui_run initialWorld
              [ ClickRun; settled 0%nat; protected 0%nat;
                ClickRun; settled 1%nat; protected 1%nat;
                TimerFires 0 1700000003000; MaybeLater ] in
  let w2 := ui_step w1 (TimerFires 1 1700000010000) in
  lastEthicsPromptTime (app w1) = 1700000003000
  /\ showEthicsPrompt (app w1) = false
  /\ showEthicsPrompt (app w2) = true
  /\ lastEthicsPromptTime (app w2) = 1700000010000
  /\ 1700000010000 - 1700000003000 < ETHICS_PROMPT_COOLDOWN_MS.
Proof.
  destruct (cooldown_not_kept_between_prompts initialWorld
              (Ok (baselineData 86.5%float)) (Ok (privateData 84%float 1%float))
              (Ok (baselineData 86.5%float)) (Ok (privateData 84%float 1%float))
              1700000003000 1700000010000)
    as (H1 & H2 & H3 & H4);
    [reflexivity | reflexivity | reflexivity | vm_compute; discriminate | lia |].
  split; [exact H1 |]. split; [exact H2 |]. split; [exact H3 |].
  split; [exact H4 | reflexivity].
Defined.

(** ** Failure of the protected call *)

Lemma thrown_for_string (fallback : string) (errorData : Json) (detail : string) :
  json_member "detail" errorData = Some (Val (JString detail)) ->
  detail <> "" ->
  thrown_for fallback (Parsed errorData) = ErrorObject detail.
Proof.
  intros H Hne. unfold thrown_for. rewrite H.
  apply String.eqb_neq in Hne.
  unfold or_else, falsy, json_falsy, falsy, string_falsy. rewrite Hne. reflexivity.
Qed.

Lemma thrown_for_no_detail (fallback : string) (errorData : Json) (detail : Js Json) :
  json_member "detail" errorData = Some detail ->
  truthy detail = false ->
  thrown_for fallback (Parsed errorData) = ErrorObject fallback.
Proof.
  intros H Hf. unfold thrown_for. rewrite H.
  destruct detail as [| |v]; try reflexivity.
  unfold truthy in Hf. apply negb_false_iff in Hf.
  unfold or_else. rewrite Hf. reflexivity.
Qed.



Lemma thrown_for_text (fallback : string) (body : ErrorBody) :
  detail_is_text body = true ->
  fallback <> "" ->
  exists message, thrown_for fallback body = ErrorObject message /\ message <> "".
Proof.
  intros Htext Hf.
  destruct body as [|errorData]; [eexists; split; [reflexivity | discriminate] |].
  unfold detail_is_text in Htext.
  destruct (json_member "detail" errorData) as [[| |v]|] eqn:E; try discriminate Htext.
  - exists fallback. split; [| exact Hf].
    apply (thrown_for_no_detail fallback errorData Undefined E). reflexivity.
  - exists fallback. split; [| exact Hf].
    apply (thrown_for_no_detail fallback errorData Null E). reflexivity.
  - destruct v as [|b|x text|detail|items|members]; try discriminate Htext.
    destruct (String.eqb_spec detail "") as [-> | Hne].
    + exists fallback. split; [| exact Hf].
      apply (thrown_for_no_detail fallback errorData (Val (JString "")) E). reflexivity.
    + exists detail. split; [| exact Hne].
      apply thrown_for_string; assumption.
Qed.

Lemma fallback_of_nonempty (k : Suspended) : fallback_of k <> "".
Proof. destruct k; discriminate. Qed.





(** ** A submission without privacy *)

(** Handlers and timers that run while a baseline call is in flight leave
    the log, the comparison and the parked invocation alone. *)
Lemma quiet_step_frame (w : World) (i : Input) (id : nat) (snap : AppState) :
  is_quiet i = true ->
  pending w !! id = Some (AwaitBaseline snap) ->
  log (step w i) = log w
  /\ comparison (app (step w i)) = comparison (app w)
  /\ pending (step w i) !! id = Some (AwaitBaseline snap).
Proof.
  intros Hq Hk.
  destruct i as [|id' o|id' now|m|b|n|v|v|v|v| |]; try discriminate Hq;
    try (repeat split; assumption).
  - simpl. destruct (pending w !! id') as [[s|s|s|s]|] eqn:Hk';
      try (repeat split; assumption).
    simpl. split; [reflexivity |]. split; [apply comparison_ethicsPromptTimeout |].
    rewrite lookup_delete_ne; [exact Hk |].
    intros ->. rewrite Hk in Hk'. discriminate Hk'.
  - destruct m; repeat split; assumption.
Qed.

Lemma quiet_run_frame (quiet : list Input) (w : World) (id : nat) (snap : AppState) :
  forallb is_quiet quiet = true ->
  pending w !! id = Some (AwaitBaseline snap) ->
  log (run w quiet) = log w
  /\ comparison (app (run w quiet)) = comparison (app w)
  /\ pending (run w quiet) !! id = Some (AwaitBaseline snap).
Proof.
  revert w. induction quiet as [|i quiet IH]; intros w Hq Hk.
  - repeat split; assumption.
  - simpl in Hq. apply andb_true_iff in Hq as [Hi Hq].
    destruct (quiet_step_frame w i id snap Hi Hk) as (Hl & Hc & Hp).
    destruct (IH (step w i) Hq Hp) as (Hl' & Hc' & Hp').
    simpl. rewrite Hl', Hc', Hl, Hc. repeat split. exact Hp'.
Qed.

(** C5: a submission in differential-privacy mode with privacy disabled
    issues one call, the baseline; once that call has settled the
    submission is over, and the protected member of [comparison] is null.
    A baseline call is sent with [dp_enabled] false and [epsilon] null
    whatever the configuration holds. *)
Theorem no_privacy_submission_is_baseline_only
    (w : World) (quiet : list Input) (o : FetchOutcome) :
  trainingMode (app w) = dp ->
  Config.dpEnabled (config (app w)) = false ->
  forallb is_quiet quiet = true ->
  let id := fresh w in
  let w' := step (run (step w ClickRun) quiet) (FetchSettles id o) in
  log w'
  = Settled id Baseline o
    :: Issued id Baseline
         (ExperimentRequest (Config.sampleDataset (config (app w)))
                            (Config.modelType (config (app w))) false Null)
    :: log w
  /\ pending w' !! id = None
  /\ ComparisonData.private (comparison (app w')) = None
  /\ (forall cfg, experimentRequest true cfg
                  = ExperimentRequest (Config.sampleDataset cfg) (Config.modelType cfg)
                                      false Null).
Proof.
  intros Hmode Hdp Hq id w'.
  assert (Hreq : forall cfg, experimentRequest true cfg
                             = ExperimentRequest (Config.sampleDataset cfg)
                                                 (Config.modelType cfg) false Null)
    by reflexivity.
  cut (log w'
       = Settled id Baseline o
         :: Issued id Baseline
              (ExperimentRequest (Config.sampleDataset (config (app w)))
                                 (Config.modelType (config (app w))) false Null)
         :: log w
       /\ pending w' !! id = None
       /\ ComparisonData.private (comparison (app w')) = None);
    [intuition |].
  assert (Hk : pending (step w ClickRun) !! id = Some (AwaitBaseline (app w))).
  { simpl. apply lookup_insert_eq. }
  destruct (quiet_run_frame quiet (step w ClickRun) id (app w) Hq Hk)
    as (Hl & Hc & Hp).
  unfold w'. rewrite (step_settle_baseline_only _ id (app w) o Hp Hmode Hdp).
  remember (run (step w ClickRun) quiet) as w1 eqn:Ew1. clear Ew1.
  cbn [log pending app]. rewrite Hl.
  split; [reflexivity |].
  split; [apply lookup_delete_eq |].
  unfold runExperiment_resume.
  destruct (response_data _ o); cbn; rewrite Hc; reflexivity.
Qed.

Lemma no_privacy_submission_is_baseline_only_witness :
  let w := step initialWorld (ToggleDp false) in
  let o := Ok (baselineData 86.5%float) in
  let w' := step (run (step w ClickRun) [ChooseTab survey]) (FetchSettles 0 o) in
  log w'
  = [ Settled 0 Baseline o;
      Issued 0 Baseline (ExperimentRequest "diabetes" "fnn" false Null) ]
  /\ pending w' !! 0%nat = None
  /\ ComparisonData.private (comparison (app w')) = None.
Proof.
  destruct (no_privacy_submission_is_baseline_only
              (step initialWorld (ToggleDp false)) [ChooseTab survey]
              (Ok (baselineData 86.5%float)))
    as (Hlog & Hdone & Hprivate & _); try reflexivity.
  split; [exact Hlog |]. split; [exact Hdone | exact Hprivate].
Defined.

(** ** The privacy budget of a protected run *)

(** A positive number is truthy. *)
Lemma positive_is_truthy (e : float) :
  PrimFloat.ltb 0%float e = true -> falsy e = false.
Proof.
  unfold falsy, float_falsy. rewrite FloatAxioms.ltb_spec, !FloatAxioms.eqb_spec.
  change (FloatOps.Prim2SF 0%float) with (SpecFloat.S754_zero false).
  destruct (FloatOps.Prim2SF e) as [s|s| |s m ex]; try discriminate.
  - destruct s; [discriminate | reflexivity].
  - destruct s; try discriminate.
    intros _. unfold SpecFloat.SFeqb, SpecFloat.SFcompare.
    rewrite Z.compare_refl, Pos.compare_refl. reflexivity.
Qed.

Lemma privateResult_epsilon_returned (cfg : Config.t) (data : Data.t) (e : float) :
  Data.epsilon data = Val e -> falsy e = false ->
  Result.epsilon (privateResult cfg data) = Val e.
Proof.
  intros He Hf. simpl. rewrite He. apply js_or_truthy. simpl. rewrite Hf. reflexivity.
Qed.

Lemma privateResult_epsilon_fallback (cfg : Config.t) (data : Data.t) :
  truthy (Data.epsilon data) = false ->
  Result.epsilon (privateResult cfg data) = of_option (Config.epsilon cfg).
Proof. intros Hf. simpl. apply js_or_falsy, Hf. Qed.

(** Outside the privacy budgets, which are positive: a returned epsilon of
    [0] is falsy, and the protected [Result] records the requested epsilon
    in its place. *)
Lemma returned_zero_epsilon_is_replaced :
  let data := privateData 84%float 0%float in
  let w := run initialWorld
             [ ClickRun;
               FetchSettles 0 (Ok (baselineData 86.5%float));
               FetchSettles 0 (Ok data) ] in
  Config.epsilon (config initialState) = Some 1%float
  /\ Data.epsilon data = Val 0%float
  /\ Result.epsilon <$> ComparisonData.private (comparison (app w)) = Some (Val 1%float).
Proof. repeat split; vm_compute; reflexivity. Qed.

(** C6: in a differential-privacy submission the protected call carries the
    epsilon of the configuration the submission was started with, as it is.
    When that call succeeds, whatever the user has done meanwhile, the
    protected [Result] records the epsilon the service returned when it
    returned one, a privacy budget being a positive number, and the
    requested epsilon when the service left it out or sent [null]; no error
    is raised either way. *)
Theorem private_run_epsilon
    (w : World) (id : nat) (snap : AppState) (o : FetchOutcome) (data : Data.t)
    (quiet : list Input) :
  pending w !! id = Some (AwaitBaseline snap) ->
  trainingMode snap = dp ->
  Config.dpEnabled (config snap) = true ->
  forallb is_quiet quiet = true ->
  let requested := of_option (Config.epsilon (config snap)) in
  let w1 := step w (FetchSettles id o) in
  let w2 := step (run w1 quiet) (FetchSettles id (Ok data)) in
  log w1
  = Issued id Private
      (ExperimentRequest (Config.sampleDataset (config snap))
                         (Config.modelType (config snap)) true requested)
    :: Settled id Baseline o :: log w
  /\ error (app w2) = None
  /\ exists r,
       ComparisonData.private (comparison (app w2)) = Some r
       /\ (forall e, Data.epsilon data = Val e -> PrimFloat.ltb 0%float e = true ->
                     Result.epsilon r = Val e)
       /\ (Data.epsilon data = Undefined \/ Data.epsilon data = Null ->
           Result.epsilon r = requested).
Proof.
  intros Hk Hmode Hdp Hq requested w1 w2.
  assert (E1 : w1 = _) by exact (step_settle_baseline_dp w id snap o Hk Hmode Hdp).
  assert (Hk1 : pending w1 !! id = Some (AwaitPrivate snap)).
  { rewrite E1. cbn [pending]. apply lookup_insert_eq. }
  destruct (quiet_run_keeps quiet w1 Hq) as (_ & _ & _ & _ & He & _ & Hkeep & _).
  assert (E2 : w2 = _)
    by exact (step_settle_private (run w1 quiet) id snap (Ok data)
                (Hkeep id _ Hk1 eq_refl)).
  split.
  { rewrite E1. cbn [log]. unfold experimentRequest. rewrite Hdp. reflexivity. }
  split.
  { rewrite E2. cbn [app]. unfold runExperiment_resume. cbn [response_data].
    change (error (setStatus idle (setComparison ?f ?st))) with (error st).
    rewrite He, E1. reflexivity. }
  exists (privateResult (config snap) data).
  split; [rewrite E2; reflexivity |].
  split.
  - intros e He' Hpos. apply privateResult_epsilon_returned; [exact He' |].
    apply positive_is_truthy, Hpos.
  - intros Hnone. apply privateResult_epsilon_fallback.
    destruct Hnone as [-> | ->]; reflexivity.
Qed.

(** The service returns the epsilon [0.75] to a request for [1]; and the
    user moves the slider to [10] while the protected call is in flight and
    the service returns no epsilon: the [Result] records the [1] that was
    requested. *)
Lemma private_run_epsilon_witness :
  let w := run initialWorld [ClickRun] in
  let w1 := step w (FetchSettles 0 (Ok (baselineData 86.5%float))) in
  let returned := step w1 (FetchSettles 0 (Ok (privateData 84%float 0.75%float))) in
  let omitted :=
    step (run w1 [SlideEpsilon 3]) (FetchSettles 0 (Ok (baselineData 84%float))) in
  log w1
  = [ Issued 0 Private (ExperimentRequest "diabetes" "fnn" true (Val 1%float));
      Settled 0 Baseline (Ok (baselineData 86.5%float));
      Issued 0 Baseline (ExperimentRequest "diabetes" "fnn" false Null) ]
  /\ Result.epsilon <$> ComparisonData.private (comparison (app returned))
     = Some (Val 0.75%float)
  /\ Config.epsilon (config (app omitted)) = Some 10%float
  /\ Result.epsilon <$> ComparisonData.private (comparison (app omitted))
     = Some (Val 1%float).
Proof.
  destruct (private_run_epsilon
              (run initialWorld [ClickRun]) 0%nat initialState
              (Ok (baselineData 86.5%float)) (privateData 84%float 0.75%float) [])
    as (Hlog & _ & r & Hr & Hreturned & _);
    [vm_compute; reflexivity | reflexivity | reflexivity | reflexivity |].
  destruct (private_run_epsilon
              (run initialWorld [ClickRun]) 0%nat initialState
              (Ok (baselineData 86.5%float)) (baselineData 84%float) [SlideEpsilon 3])
    as (_ & _ & r' & Hr' & _ & Homitted);
    [vm_compute; reflexivity | reflexivity | reflexivity | reflexivity |].
  split; [exact Hlog |].
  split.
  { etransitivity; [apply (f_equal (fmap Result.epsilon)); exact Hr |].
    cbn. f_equal. apply (Hreturned 0.75%float); vm_compute; reflexivity. }
  split; [vm_compute; reflexivity |].
  etransitivity; [apply (f_equal (fmap Result.epsilon)); exact Hr' |].
  cbn. f_equal. apply Homitted. left. reflexivity.
Defined.

(** ** The two variants of the federated accuracy loss *)

(** C9: there is a federated response, without [accuracy_loss], for which
    the two variants store different accuracy losses: the current one
    subtracts from the baseline accuracy embedded in the response, the
    earlier one from the baseline [Result] of its [comparison]. *)
Theorem federated_accuracy_loss_variants_differ :
  exists (snap st : AppState) (stored : Result.t) (data : Data.t),
    ComparisonData.baseline (comparison snap) = Some stored
    /\ Data.accuracy_loss data = Undefined
    /\ Result.accuracyLoss (federatedResult snap data) = Val 2.5%float
    /\ Result.accuracyLoss (Earlier.federatedResult snap data) = Val (-4)%float
    /\ Result.accuracyLoss (federatedResult snap data)
       <> Result.accuracyLoss (Earlier.federatedResult snap data)
    /\ ComparisonData.private (comparison (runFederatedExperiment_resume snap (Ok data) st))
       <> ComparisonData.private
            (comparison (Earlier.runFederatedExperiment_resume snap (Ok data) st)).
Proof.
  pose (stored := baselineResult (baselineData 80%float)).
  pose (snap := setComparison (with_baseline stored) (setTrainingMode fl initialState)).
  pose (data := federatedData 86.5%float 84%float).
  assert (Hne : Result.accuracyLoss (federatedResult snap data)
                <> Result.accuracyLoss (Earlier.federatedResult snap data)).
  { intros E. vm_compute in E. apply Val_inj in E. revert E.
    apply float_neq; vm_compute; reflexivity. }
  exists snap, snap, stored, data.
  split; [reflexivity |].
  split; [reflexivity |].
  split; [vm_compute; reflexivity |].
  split; [vm_compute; reflexivity |].
  split; [exact Hne |].
  intros E. apply Hne.
  change (Result.accuracyLoss
            (match Some (federatedResult snap data) with
             | Some r => r
             | None => stored
             end)
          = Result.accuracyLoss (Earlier.federatedResult snap data)).
  change (Some (federatedResult snap data))
    with (ComparisonData.private
            (comparison (runFederatedExperiment_resume snap (Ok data) snap))).
  rewrite E. reflexivity.
Qed.

(** ** The ethics prompt modal *)

(** C10 at its failing input: the baseline call of a differential-privacy
    submission fails, the protected call succeeds, the timer fires with the
    cooldown elapsed.  The prompt flag is set and the protected [Result] is
    present, the baseline [Result] is null, and the modal reads
    [comparison.baseline!.baselineAccuracy]. *)
Lemma ethics_prompt_reads_null_baseline :
  let w := ui_run initialWorld
             [ ClickRun;
               FetchSettles 0 (NotOk (Parsed (detailBody "Model file not found")));
               FetchSettles 0 (Ok (privateData 84%float 1%float));
               TimerFires 0 1700000000000 ] in
  showEthicsPrompt (app w) = true
  /\ ComparisonData.private (comparison (app w))
     = Some (privateResult (config initialState) (privateData 84%float 1%float))
  /\ ComparisonData.baseline (comparison (app w)) = None
  /\ error (app w) = None
  /\ ethicsPromptModal (app w) = RenderThrows.
Proof. repeat split; vm_compute; reflexivity. Qed.

(** The callback of a timer reads the last-prompt timestamp of the render
    its submission started in.  A submission started within the three
    seconds before the timer of the previous one fires still reads the old
    timestamp, and the prompt fires twice within the cooldown. *)
Lemma cooldown_read_from_closure :
  let ok_baseline := FetchSettles 0 (Ok (baselineData 86.5%float)) in
  let ok_private id := FetchSettles id (Ok (privateData 84%float 1%float)) in
  let w1 := ui_run initialWorld
              [ ClickRun; ok_baseline; ok_private 0%nat;
                ClickRun; FetchSettles 1 (Ok (baselineData 86.5%float)); ok_private 1%nat;
                TimerFires 0 1700000003000; MaybeLater ] in
  let w2 := ui_step w1 (TimerFires 1 1700000010000) in
  lastEthicsPromptTime (app w1) = 1700000003000
  /\ showEthicsPrompt (app w1) = false
  /\ showEthicsPrompt (app w2) = true
  /\ lastEthicsPromptTime (app w2) = 1700000010000
  /\ 1700000010000 - lastEthicsPromptTime (app w1) < ETHICS_PROMPT_COOLDOWN_MS.
Proof. repeat split; vm_compute; reflexivity. Qed.

(** ** The run button and the call in flight *)




(** ** Submissions from the click to the end *)

Lemma showsErrorBox_none (st : AppState) :
  error st = None -> showsErrorBox st = false.
Proof.
  intros H. unfold showsErrorBox. rewrite H.
  destruct (pageRenders st), (activeTab st); reflexivity.
Qed.

(** The baseline call of a two-call submission fails and the second call
    succeeds: the submission ends with no error on screen and no baseline
    [Result], only the protected one.  The message of the failed baseline
    call is erased when the second call starts. *)
Theorem failed_baseline_goes_unreported
    (w : World) (id : nat) (snap : AppState) (o1 : FetchOutcome) (data : Data.t) :
  pending w !! id = Some (AwaitBaseline snap) ->
  (trainingMode snap = fl \/ Config.dpEnabled (config snap) = true) ->
  succeeded o1 = false ->
  let w2 := run w [FetchSettles id o1; FetchSettles id (Ok data)] in
  error (app w2) = None
  /\ showsErrorBox (app w2) = false
  /\ ComparisonData.baseline (comparison (app w2))
     = ComparisonData.baseline (comparison (app w))
  /\ exists r, ComparisonData.private (comparison (app w2)) = Some r.
Proof.
  intros Hk Hmode Ho1 w2.
  assert (Hcmp := runExperiment_resume_failed true snap o1 (app w) Ho1).
  destruct (trainingMode snap) eqn:Emode.
  - destruct Hmode as [Hfl | Hdp]; [discriminate Hfl |].
    assert (E1 := step_settle_baseline_dp w id snap o1 Hk Emode Hdp).
    assert (Hk1 : pending (step w (FetchSettles id o1)) !! id = Some (AwaitPrivate snap)).
    { rewrite E1. apply lookup_insert_eq. }
    assert (E2 := step_settle_private _ id snap (Ok data) Hk1).
    unfold w2, run. cbn [fold_left]. rewrite E2, E1.
    remember (runExperiment_resume true snap o1 (app w)) as st1 eqn:Est1. clear Est1.
    split; [reflexivity |].
    split; [apply showsErrorBox_none; reflexivity |].
    cbn. rewrite Hcmp. repeat split. eauto.
  - assert (E1 := step_settle_baseline_fl w id snap o1 Hk Emode).
    assert (Hk1 : pending (step w (FetchSettles id o1)) !! id = Some (AwaitFederated snap)).
    { rewrite E1. apply lookup_insert_eq. }
    assert (E2 := step_settle_federated _ id snap (Ok data) Hk1).
    unfold w2, run. cbn [fold_left]. rewrite E2, E1.
    remember (runExperiment_resume true snap o1 (app w)) as st1 eqn:Est1. clear Est1.
    split; [reflexivity |].
    split; [apply showsErrorBox_none; reflexivity |].
    cbn. rewrite Hcmp. repeat split. eauto.
Qed.

Lemma failed_baseline_goes_unreported_witness :
  let w := run initialWorld [ChooseTrainingMode fl; ClickRun] in
  let w2 := run w [ FetchSettles 0 (Rejected (ErrorObject "Failed to fetch"));
                    FetchSettles 0 (Ok (federatedData 86.5%float 84%float)) ] in
  error (app (step w (FetchSettles 0 (Rejected (ErrorObject "Failed to fetch")))))
  = None
  /\ error (app w2) = None
  /\ ComparisonData.baseline (comparison (app w2)) = None.
Proof.
  split; [vm_compute; reflexivity |].
  destruct (failed_baseline_goes_unreported
              (run initialWorld [ChooseTrainingMode fl; ClickRun]) 0%nat
              (step initialWorld (ChooseTrainingMode fl)).(app)
              (Rejected (ErrorObject "Failed to fetch"))
              (federatedData 86.5%float 84%float))
    as (Herr & _ & Hbase & _).
  - vm_compute. reflexivity.
  - left. reflexivity.
  - reflexivity.
  - split; [exact Herr |]. rewrite Hbase. vm_compute. reflexivity.
Defined.

(** ** A submission of two calls, with handlers and timers in between *)

Lemma comparison_baseline_resume (snap : AppState) (o : FetchOutcome) (st : AppState) :
  comparison (runExperiment_resume true snap o st)
  = match o with
    | Ok data => with_baseline (baselineResult data) (comparison st)
    | _ => comparison st
    end.
Proof. destruct o; reflexivity. Qed.

Lemma showEthicsPrompt_baseline_resume (snap : AppState) (o : FetchOutcome)
    (st : AppState) :
  showEthicsPrompt (runExperiment_resume true snap o st) = showEthicsPrompt st.
Proof.
  unfold runExperiment_resume. destruct (response_data _ o); reflexivity.
Qed.

(** A submission of two calls up to the settling of its second call, with
    handlers and timers running in between. *)
Lemma two_call_submission (w : World) (o1 : FetchOutcome) (q1 q2 : list Input) :
  trainingMode (app w) = fl \/ Config.dpEnabled (config (app w)) = true ->
  forallb is_quiet q1 = true ->
  forallb is_quiet q2 = true ->
  let id := fresh w in
  let w2 := run w (ClickRun :: q1 ++ FetchSettles id o1 :: q2) in
  log w2
  = protected_call id (app w)
    :: Settled id Baseline o1
    :: Issued id Baseline (experimentRequest true (config (app w)))
    :: log w
  /\ comparison (app w2)
     = ComparisonData.mk
         match o1 with
         | Ok d1 => Some (baselineResult d1)
         | _ => None
         end
         None
  /\ status (app w2) = running
  /\ error (app w2) = None
  /\ pending w2 !! id = Some (protected_of (app w))
  /\ (forall id' k, pending w2 !! id' = Some k -> id' <> id -> pending w !! id' = Some k)
  /\ (showEthicsPrompt (app w2) = true -> existsb is_timer (q1 ++ q2) = true).
Proof.
  intros Hmode Hq1 Hq2 id w2.
  pose (w1 := run (step w ClickRun) q1).
  assert (Hk0 : pending (step w ClickRun) !! id = Some (AwaitBaseline (app w))).
  { rewrite step_click. apply lookup_insert_eq. }
  destruct (quiet_run_keeps q1 (step w ClickRun) Hq1)
    as (Hl1 & _ & Hc1 & _ & _ & Hsub1 & Hkeep1 & Hflag1).
  fold w1 in Hl1, Hc1, Hsub1, Hkeep1, Hflag1.
  assert (Hk1 : pending w1 !! id = Some (AwaitBaseline (app w)))
    by (apply Hkeep1; [exact Hk0 | reflexivity]).
  assert (E1 : exists st1,
             step w1 (FetchSettles id o1)
             = mkWorld st1 (<[id := protected_of (app w)]> (pending w1)) (fresh w1)
                       (protected_call id (app w) :: Settled id Baseline o1 :: log w1)
             /\ st1 = setError None
                        (setStatus running (runExperiment_resume true (app w) o1 (app w1)))).
  { eexists. split; [| reflexivity].
    unfold protected_of, protected_call.
    destruct (trainingMode (app w)) eqn:Emode.
    - destruct Hmode as [Hfl | Hdp]; [discriminate Hfl |].
      apply (step_settle_baseline_dp w1 id (app w) o1 Hk1 Emode Hdp).
    - apply (step_settle_baseline_fl w1 id (app w) o1 Hk1 Emode). }
  destruct E1 as (st1 & E1 & Est1).
  assert (Ew2 : w2 = run (step w1 (FetchSettles id o1)) q2)
    by apply run_first_call.
  destruct (quiet_run_keeps q2 (step w1 (FetchSettles id o1)) Hq2)
    as (Hl2 & _ & Hc2 & Hs2 & He2 & Hsub2 & Hkeep2 & Hflag2).
  rewrite <- Ew2 in Hl2, Hc2, Hs2, He2, Hsub2, Hkeep2, Hflag2.
  clearbody w2. rewrite E1 in Hl2, Hc2, Hs2, He2, Hsub2, Hkeep2, Hflag2.
  cbn [app pending log] in Hl2, Hc2, Hs2, He2, Hsub2, Hkeep2, Hflag2.
  split.
  { rewrite Hl2, Hl1, step_click. reflexivity. }
  split.
  { rewrite Hc2, Est1.
    change (comparison (setError None (setStatus running ?st))) with (comparison st).
    rewrite comparison_baseline_resume, Hc1, step_click.
    destruct o1; reflexivity. }
  split; [rewrite Hs2, Est1; reflexivity |].
  split; [rewrite He2, Est1; reflexivity |].
  split.
  { apply Hkeep2; [apply lookup_insert_eq |].
    unfold protected_of. destruct (trainingMode (app w)); reflexivity. }
  split.
  { intros id' k Hk Hne. apply Hsub2 in Hk.
    rewrite lookup_insert_ne in Hk by (intros E; apply Hne; symmetry; exact E).
    apply Hsub1 in Hk. rewrite step_click in Hk. cbn [pending] in Hk.
    rewrite lookup_insert_ne in Hk by (intros E; apply Hne; symmetry; exact E).
    exact Hk. }
  intros Hon. rewrite existsb_app. apply orb_true_iff.
  destruct (Hflag2 Hon) as [H | H]; [| right; exact H].
  left. rewrite Est1 in H.
  change (showEthicsPrompt (setError None (setStatus running ?st)))
    with (showEthicsPrompt st) in H.
  rewrite showEthicsPrompt_baseline_resume in H.
  destruct (Hflag1 H) as [H1 | H1]; [| exact H1].
  rewrite step_click in H1. discriminate H1.
Qed.

(** ** States that render *)

Lemma comparisonDraws_renders (st : AppState) :
  comparisonDraws (comparison st) = true -> pageRenders st = true.
Proof.
  unfold comparisonDraws, pageRenders, ethicsPromptModal, drawsGrid, comparisonGrid,
    hasResults.
  destruct (ComparisonData.baseline (comparison st)) as [b|],
    (ComparisonData.private (comparison st)) as [p|];
    intros H; try discriminate H.
  - apply andb_true_iff in H as [H Ht]. apply andb_true_iff in H as [Hb Hp].
    assert (Htitle : titleRenders
                       (getAggregatorLabel_of
                          (or_else (Result.aggregator p) (Text (aggregator st)))) = true).
    { destruct (Result.aggregator p) as [| |[s|key]]; try reflexivity.
      - unfold or_else. destruct (falsy (Text s)); reflexivity.
      - exact Ht. }
    destruct (showEthicsPrompt st), (activeTab st), (isLoading st),
      (trainingMode st), (Config.dpEnabled (config st));
      cbn [List.app forallb cardDraws andb negb]; rewrite ?Hb, ?Hp, ?Htitle; reflexivity.
  - destruct (showEthicsPrompt st), (activeTab st), (isLoading st),
      (trainingMode st), (Config.dpEnabled (config st));
      cbn [List.app forallb cardDraws andb negb]; rewrite ?H; reflexivity.
  - destruct (showEthicsPrompt st), (activeTab st), (isLoading st),
      (trainingMode st), (Config.dpEnabled (config st)); reflexivity.
Qed.

Lemma rendersThroughout_app (l1 l2 : list Input) (w : World) :
  rendersThroughout w l1 = true ->
  rendersThroughout (run w l1) l2 = true ->
  rendersThroughout w (l1 ++ l2) = true.
Proof.
  revert w. induction l1 as [|i l1 IH]; intros w H1 H2.
  - exact H2.
  - cbn [rendersThroughout] in H1. apply andb_true_iff in H1 as [Hw H1].
    cbn [List.app rendersThroughout]. rewrite Hw. apply IH; assumption.
Qed.

Lemma rendersThroughout_step (w : World) (i : Input) :
  pageRenders (app w) = true ->
  pageRenders (app (step w i)) = true ->
  rendersThroughout w [i] = true.
Proof.
  intros H1 H2. cbn [rendersThroughout]. rewrite H1, H2. reflexivity.
Qed.

(** Handlers and timers keep the page rendering while [comparison] is one
    that draws. *)
Lemma quiet_renders (quiet : list Input) (w : World) :
  forallb is_quiet quiet = true ->
  comparisonDraws (comparison (app w)) = true ->
  rendersThroughout w quiet = true.
Proof.
  revert w. induction quiet as [|i quiet IH]; intros w Hq Hc.
  - cbn [rendersThroughout]. rewrite (comparisonDraws_renders _ Hc). reflexivity.
  - simpl in Hq. apply andb_true_iff in Hq as [Hi Hq].
    cbn [rendersThroughout]. rewrite (comparisonDraws_renders _ Hc).
    apply IH; [exact Hq |].
    destruct (quiet_step_keeps w i Hi) as (_ & _ & Hcmp & _).
    rewrite Hcmp. exact Hc.
Qed.

(** ** What sets the prompt flag *)

Ltac table_cases H :=
  first [ apply fetch_of_insert in H; destruct H as [[? H] | [? H]]
        | apply fetch_of_delete in H; destruct H as [? H] ].

Lemma step_timers_of_private_runs (w : World) (i : Input) :
  timers_of_private_runs w -> timers_of_private_runs (step w i).
Proof.
  intros Hw.
  destruct i as [|id o|id now|m|b|n|v|v|v|v| |]; try exact Hw.
  - (* ClickRun *)
    rewrite step_click. intros id snap H. cbn [pending] in H.
    destruct H as [H | H]; table_cases H; try discriminate H;
      apply (Hw id snap); auto.
  - (* FetchSettles *)
    simpl. destruct (pending w !! id) as [k|] eqn:Hk; [| exact Hw].
    destruct k as [snap|snap|snap|snap]; simpl; try exact Hw.
    + destruct (trainingMode snap) eqn:Emode;
        [destruct (Config.dpEnabled (config snap)) eqn:Edp |];
        intros id' snap' H; cbn [pending] in H;
        destruct H as [H | H]; table_cases H; try discriminate H;
        try (injection H as ?; subst; split; assumption);
        apply (Hw id' snap'); auto.
    + intros id' snap' H. cbn [pending] in H.
      destruct H as [H | H]; table_cases H; try discriminate H;
        try (injection H as ?; subst; apply (Hw id snap); auto);
        apply (Hw id' snap'); auto.
    + intros id' snap' H. cbn [pending] in H.
      destruct H as [H | H]; table_cases H; apply (Hw id' snap'); auto.
  - (* TimerFires *)
    simpl. destruct (pending w !! id) as [[snap|snap|snap|snap]|] eqn:Hk; try exact Hw.
    intros id' snap' H. cbn [pending] in H.
    destruct H as [H | H]; table_cases H; apply (Hw id' snap'); auto.
  - destruct m; exact Hw.
Qed.

Lemma showEthicsPrompt_resume (id : nat) (k : Suspended) (o : FetchOutcome)
    (st : AppState) :
  showEthicsPrompt (fst (fst (runComparison_resume id k o st))) = showEthicsPrompt st.
Proof.
  destruct k as [snap|snap|snap|snap]; simpl; try reflexivity.
  - unfold runExperiment_resume.
    destruct (trainingMode snap); [destruct (Config.dpEnabled (config snap)) |];
      destruct (response_data _ o); reflexivity.
  - unfold runExperiment_resume. destruct (response_data _ o); reflexivity.
  - unfold runFederatedExperiment_resume. destruct (response_data _ o); reflexivity.
Qed.

(** In every run of the orchestrator, from any state of the component, the
    prompt flag goes from unset to set only when the timer of a submission
    fires that was started in differential-privacy mode with privacy
    enabled, and only with the cooldown elapsed for the timestamp that
    submission read: no click, no response and no federated or
    baseline-only submission sets it. *)
Theorem prompt_set_only_by_private_run_timer
    (st : AppState) (inputs : list Input) (i : Input) :
  let w := run (mkWorld st ∅ 0%nat []) inputs in
  showEthicsPrompt (app w) = false ->
  showEthicsPrompt (app (step w i)) = true ->
  exists id snap now,
    i = TimerFires id now
    /\ pending w !! id = Some (EthicsTimer snap)
    /\ trainingMode snap = dp
    /\ Config.dpEnabled (config snap) = true
    /\ now - lastEthicsPromptTime snap >= ETHICS_PROMPT_COOLDOWN_MS.
Proof.
  intros w Hoff Hon.
  assert (Hw : timers_of_private_runs w).
  { apply (run_preserves timers_of_private_runs).
    - exact step_timers_of_private_runs.
    - intros id snap [H | H]; cbn [pending] in H; rewrite lookup_empty in H;
        discriminate H. }
  destruct i as [|id o|id now|m|b|n|v|v|v|v| |];
    try (simpl in Hon; congruence).
  - (* FetchSettles *)
    simpl in Hon. destruct (pending w !! id) as [k|]; [| congruence].
    destruct (awaits_fetch k); [| congruence].
    pose proof (showEthicsPrompt_resume id k o (app w)) as Hkeep.
    destruct (runComparison_resume id k o (app w)) as [[st' events] next].
    simpl in Hon, Hkeep. congruence.
  - (* TimerFires *)
    simpl in Hon.
    destruct (pending w !! id) as [[snap|snap|snap|snap]|] eqn:Hk; try congruence.
    cbn [app] in Hon. unfold ethicsPromptTimeout in Hon.
    destruct (shouldPrompt (lastEthicsPromptTime snap) now) eqn:Egate; [| congruence].
    destruct (Hw id snap (or_introl Hk)) as [Hmode Hdp].
    exists id, snap, now. repeat split; try assumption.
    apply shouldPrompt_spec in Egate. unfold ETHICS_PROMPT_COOLDOWN_MS. exact Egate.
  - destruct m; simpl in Hon; congruence.
Qed.

Lemma prompt_set_only_by_private_run_timer_witness :
  let inputs := [ ClickRun;
                  FetchSettles 0 (Ok (baselineData 86.5%float));
                  FetchSettles 0 (Ok (privateData 84%float 1%float)) ] in
  let w := run (mkWorld initialState ∅ 0%nat []) inputs in
  exists id snap now,
    TimerFires 0 1700000000000 = TimerFires id now
    /\ pending w !! id = Some (EthicsTimer snap)
    /\ trainingMode snap = dp
    /\ Config.dpEnabled (config snap) = true
    /\ now - lastEthicsPromptTime snap >= ETHICS_PROMPT_COOLDOWN_MS.
Proof.
  apply (prompt_set_only_by_private_run_timer initialState
           [ ClickRun;
             FetchSettles 0 (Ok (baselineData 86.5%float));
             FetchSettles 0 (Ok (privateData 84%float 1%float)) ]
           (TimerFires 0 1700000000000));
    vm_compute; reflexivity.
Defined.

(** A differential-privacy submission whose two calls succeed, started from
    any state that renders, with responses whose cards draw, and with
    handlers and timers of earlier submissions running in between: whatever
    was on screen before, [comparison] ends up holding the two results of
    this submission, the status is idle and no error is set; the page
    renders in every state on the way; and when the timer of the submission
    fires with the cooldown elapsed, the modal is on screen with the
    difference of the two stored accuracies and the stored epsilon, and the
    last-prompt timestamp is the time of the firing. *)
Theorem private_submission_succeeds
    (w : World) (d1 d2 : Data.t) (now : Z) (q1 q2 q3 : list Input) :
  trainingMode (app w) = dp ->
  Config.dpEnabled (config (app w)) = true ->
  now - lastEthicsPromptTime (app w) >= ETHICS_PROMPT_COOLDOWN_MS ->
  forallb is_quiet q1 = true ->
  forallb is_quiet q2 = true ->
  forallb (fun i => is_quiet i && negb (fires (fresh w) i)) q3 = true ->
  pageRenders (app w) = true ->
  cardRenders (baselineResult d1) = true ->
  cardRenders (privateResult (config (app w)) d2) = true ->
  let id := fresh w in
  let submission :=
    (ClickRun :: q1 ++ FetchSettles id (Ok d1) :: q2 ++ [FetchSettles id (Ok d2)])%list in
  let w3 := run w submission in
  let w4 := run w3 (q3 ++ [TimerFires id now]) in
  let baseline := baselineResult d1 in
  let private := privateResult (config (app w)) d2 in
  comparison (app w3) = ComparisonData.mk (Some baseline) (Some private)
  /\ status (app w3) = idle
  /\ error (app w3) = None
  /\ pending w3 !! id = Some (EthicsTimer (app w))
  /\ rendersThroughout w (submission ++ q3 ++ [TimerFires id now]) = true
  /\ ethicsPromptModal (app w4)
     = Rendered (Result.baselineAccuracy baseline - Result.baselineAccuracy private)%float
                (Result.epsilon private)
  /\ lastEthicsPromptTime (app w4) = now.
Proof.
  intros Hmode Hdp Hnow Hq1 Hq2 Hq3 Hpage Hb Hp id submission w3 w4 baseline private.
  pose (w2 := run w (ClickRun :: q1 ++ FetchSettles id (Ok d1) :: q2)).
  destruct (two_call_submission w (Ok d1) q1 q2 (or_intror Hdp) Hq1 Hq2)
    as (_ & Hc2 & _ & He2 & Hk2 & _ & _).
  fold id in Hc2, He2, Hk2. fold w2 in Hc2, He2, Hk2.
  unfold protected_of in Hk2. rewrite Hmode in Hk2.
  assert (E3 : w3 = step w2 (FetchSettles id (Ok d2)))
    by apply run_submission.
  rewrite (step_settle_private w2 id (app w) (Ok d2) Hk2) in E3.
  assert (Hc3 : comparison (app w3) = ComparisonData.mk (Some baseline) (Some private)).
  { rewrite E3. cbn [app]. unfold runExperiment_resume. cbn [response_data].
    change (comparison (setStatus idle ?st)) with (comparison st).
    cbn [setComparison comparison]. rewrite Hc2. reflexivity. }
  assert (Hk3 : pending w3 !! id = Some (EthicsTimer (app w)))
    by (rewrite E3; apply lookup_insert_eq).
  assert (Hs3 : status (app w3) = idle) by (rewrite E3; reflexivity).
  assert (He3 : error (app w3) = None) by (rewrite E3; exact He2).
  assert (Hdraws3 : comparisonDraws (comparison (app w3)) = true).
  { rewrite Hc3. unfold comparisonDraws.
    cbn [ComparisonData.baseline ComparisonData.private].
    fold baseline private in Hb, Hp. rewrite Hb, Hp. reflexivity. }
  assert (Hq3' : forallb is_quiet q3 = true).
  { clear -Hq3. induction q3 as [|i q3 IH]; [reflexivity |].
    cbn [forallb] in *. apply andb_true_iff in Hq3 as [Hi Hq3].
    apply andb_true_iff in Hi as [Hi _]. rewrite Hi. apply IH, Hq3. }
  (* the timer is still parked when the handlers and timers of [q3] have run *)
  assert (Hk4 : pending (run w3 q3) !! id = Some (EthicsTimer (app w))).
  { clear -Hq3 Hk3. fold id in Hq3. revert Hk3. generalize w3. clear w3.
    induction q3 as [|i q3 IH]; intros w3 Hk3; [exact Hk3 |].
    cbn [forallb] in Hq3. apply andb_true_iff in Hq3 as [Hi Hq3].
    apply andb_true_iff in Hi as [Hi Hfires]. apply negb_true_iff in Hfires.
    change (run w3 (i :: q3)) with (run (step w3 i) q3).
    apply IH; [exact Hq3 |].
    destruct (quiet_step_keeps w3 i Hi) as (_ & _ & _ & _ & _ & _ & Hkeep & _).
    apply Hkeep; [exact Hk3 | right; exact Hfires]. }
  destruct (quiet_run_keeps q3 w3 Hq3') as (_ & _ & Hc4 & _).
  assert (Hgate : shouldPrompt (lastEthicsPromptTime (app w)) now = true)
    by (apply shouldPrompt_spec; exact Hnow).
  assert (E4 : app w4
               = setLastEthicsPromptTime now (setShowEthicsPrompt true (app (run w3 q3)))).
  { unfold w4. rewrite run_app.
    change (run (run w3 q3) [TimerFires id now])
      with (step (run w3 q3) (TimerFires id now)).
    rewrite (step_timer _ id (app w) now Hk4). cbn [app].
    unfold ethicsPromptTimeout. rewrite Hgate. reflexivity. }
  assert (Hc4' : comparison (app w4) = ComparisonData.mk (Some baseline) (Some private)).
  { rewrite E4. cbn [setLastEthicsPromptTime setShowEthicsPrompt comparison].
    rewrite Hc4. exact Hc3. }
  split; [exact Hc3 |]. split; [exact Hs3 |]. split; [exact He3 |].
  split; [exact Hk3 |].
  split.
  { (* every state on the way renders *)
    unfold submission.
    change (ClickRun :: q1 ++ FetchSettles id (Ok d1) :: q2 ++ [FetchSettles id (Ok d2)])
      with ([ClickRun] ++ q1 ++ [FetchSettles id (Ok d1)] ++ q2
            ++ [FetchSettles id (Ok d2)])%list.
    rewrite <- !app_assoc.
    assert (Hc0 : comparison (app (step w ClickRun)) = ComparisonData.mk None None)
      by (rewrite step_click; reflexivity).
    destruct (quiet_run_keeps q1 (step w ClickRun) Hq1) as (_ & _ & Hc1 & _).
    pose (w1 := run (step w ClickRun) q1). fold w1 in Hc1.
    assert (Hdraws1 : comparisonDraws (comparison (app w1)) = true)
      by (rewrite Hc1, Hc0; reflexivity).
    assert (Hc1' : comparison (app (step w1 (FetchSettles id (Ok d1))))
                   = ComparisonData.mk (Some baseline) None).
    { pose proof (two_call_submission w (Ok d1) q1 [] (or_intror Hdp) Hq1 eq_refl)
        as (_ & H & _).
      fold id in H.
      rewrite (run_first_call w q1 [] (FetchSettles id (Ok d1))) in H. exact H. }
    assert (Hdraws2 : comparisonDraws
                        (comparison (app (step w1 (FetchSettles id (Ok d1))))) = true).
    { rewrite Hc1'. unfold comparisonDraws.
      cbn [ComparisonData.baseline ComparisonData.private]. exact Hb. }
    apply rendersThroughout_app.
    { apply rendersThroughout_step; [exact Hpage |].
      apply comparisonDraws_renders. rewrite Hc0. reflexivity. }
    change (run w [ClickRun]) with (step w ClickRun).
    apply rendersThroughout_app.
    { apply quiet_renders; [exact Hq1 |]. rewrite Hc0. reflexivity. }
    fold w1.
    apply rendersThroughout_app.
    { apply rendersThroughout_step; apply comparisonDraws_renders; assumption. }
    change (run w1 [FetchSettles id (Ok d1)]) with (step w1 (FetchSettles id (Ok d1))).
    apply rendersThroughout_app.
    { apply quiet_renders; assumption. }
    assert (Ew2 : run (step w1 (FetchSettles id (Ok d1))) q2 = w2)
      by (symmetry; apply run_first_call).
    rewrite Ew2.
    assert (Ew3 : step w2 (FetchSettles id (Ok d2)) = w3)
      by (symmetry; apply run_submission).
    apply rendersThroughout_app.
    { apply rendersThroughout_step; apply comparisonDraws_renders.
      - rewrite Hc2. unfold comparisonDraws.
        cbn [ComparisonData.baseline ComparisonData.private]. exact Hb.
      - rewrite Ew3. exact Hdraws3. }
    change (run w2 [FetchSettles id (Ok d2)]) with (step w2 (FetchSettles id (Ok d2))).
    rewrite Ew3.
    apply rendersThroughout_app.
    { apply quiet_renders; assumption. }
    apply rendersThroughout_step; apply comparisonDraws_renders.
    - rewrite Hc4. exact Hdraws3.
    - change (step (run w3 q3) (TimerFires id now))
        with (run (run w3 q3) [TimerFires id now]).
      rewrite <- run_app. fold w4. rewrite Hc4'. rewrite <- Hc3. exact Hdraws3. }
  split.
  - unfold ethicsPromptModal. rewrite Hc4'. rewrite E4. reflexivity.
  - rewrite E4. reflexivity.
Qed.

(** From the initial state, with a switch to another tab and back while the
    protected call is in flight. *)
Lemma private_submission_succeeds_witness :
  let submission :=
    [ ClickRun;
      FetchSettles 0 (Ok (baselineData 86.5%float));
      ChooseTab survey; ChooseTab playground;
      FetchSettles 0 (Ok (privateData 84%float 1%float)) ] in
  let w3 := run initialWorld submission in
  let w4 := run w3 [TimerFires 0 1700000000000] in
  status (app w3) = idle
  /\ rendersThroughout initialWorld (submission ++ [TimerFires 0 1700000000000]) = true
  /\ ethicsPromptModal (app w4) = Rendered 2.5%float (Val 1%float).
Proof.
  destruct (private_submission_succeeds initialWorld
              (baselineData 86.5%float) (privateData 84%float 1%float)
              1700000000000 [] [ChooseTab survey; ChooseTab playground] [])
    as (_ & Hidle & _ & _ & Hrenders & Hmodal & _);
    try reflexivity.
  - vm_compute. discriminate.
  - split; [exact Hidle |].
    split; [exact Hrenders |].
    etransitivity; [exact Hmodal | vm_compute; reflexivity].
Defined.

(** A federated submission, started from any state, with handlers and
    timers of earlier submissions running in between: the baseline call and
    then the federated call are issued, the second whatever the outcome of
    the first; each member of [comparison] holds the result of its call if
    that call succeeded and is null otherwise; the submission ends there,
    and leaves no call and no timer of its own behind; it does not set the
    prompt flag, which is set at its end only if a timer of an earlier
    submission has fired meanwhile. *)
Theorem federated_submission_runs_both_calls
    (w : World) (o1 o2 : FetchOutcome) (q1 q2 : list Input) :
  trainingMode (app w) = fl ->
  forallb is_quiet q1 = true ->
  forallb is_quiet q2 = true ->
  let id := fresh w in
  let w2 :=
    run w (ClickRun :: q1 ++ FetchSettles id o1 :: q2 ++ [FetchSettles id o2]) in
  log w2
  = Settled id Federated o2
    :: Issued id Federated (federatedRequest (app w))
    :: Settled id Baseline o1
    :: Issued id Baseline (experimentRequest true (config (app w)))
    :: log w
  /\ pending w2 !! id = None
  /\ (forall id' k, pending w2 !! id' = Some k -> pending w !! id' = Some k)
  /\ ComparisonData.baseline (comparison (app w2))
     = match o1 with
       | Ok d1 => Some (baselineResult d1)
       | _ => None
       end
  /\ ComparisonData.private (comparison (app w2))
     = match o2 with
       | Ok d2 => Some (federatedResult (app w) d2)
       | _ => None
       end
  /\ status (app w2) = idle
  /\ error (app w2) = failureMessage "Failed to run federated experiment" o2
  /\ (showEthicsPrompt (app w2) = true -> existsb is_timer (q1 ++ q2) = true).
Proof.
  intros Hmode Hq1 Hq2 id w2.
  pose (w1 := run w (ClickRun :: q1 ++ FetchSettles id o1 :: q2)).
  destruct (two_call_submission w o1 q1 q2 (or_introl Hmode) Hq1 Hq2)
    as (Hl1 & Hc1 & _ & He1 & Hk1 & Hsub1 & Hflag1).
  fold id in Hl1, Hc1, He1, Hk1, Hsub1, Hflag1.
  fold w1 in Hl1, Hc1, He1, Hk1, Hsub1, Hflag1.
  unfold protected_of in Hk1. unfold protected_call in Hl1. rewrite Hmode in Hk1, Hl1.
  assert (E2 : w2 = step w1 (FetchSettles id o2))
    by apply run_submission.
  rewrite (step_settle_federated w1 id (app w) o2 Hk1) in E2.
  clearbody w2 w1. subst w2. cbn [app pending log].
  split; [rewrite Hl1; reflexivity |].
  split; [apply lookup_delete_eq |].
  split.
  { intros id' k Hk. apply fetch_of_delete in Hk as [Hne Hk].
    exact (Hsub1 id' k Hk Hne). }
  unfold runFederatedExperiment_resume, failureMessage.
  destruct (response_data "Failed to run federated experiment" o2) as [err|data] eqn:Eo2.
  - assert (Ho2 : match o2 with Ok d2 => Some (federatedResult (app w) d2) | _ => None end
                  = None)
      by (destruct o2; [reflexivity | reflexivity | reflexivity | discriminate Eo2]).
    rewrite Ho2.
    change (comparison (setStatus idle (setError ?e ?st))) with (comparison st).
    rewrite Hc1. cbn [ComparisonData.baseline ComparisonData.private].
    repeat split; try reflexivity. exact Hflag1.
  - assert (Ho2 : o2 = Ok data)
      by (destruct o2; try discriminate Eo2; injection Eo2 as ->; reflexivity).
    rewrite Ho2.
    change (comparison (setStatus idle (setComparison ?f ?st))) with (f (comparison st)).
    rewrite Hc1. cbn [with_private ComparisonData.baseline ComparisonData.private].
    repeat split; try reflexivity; [exact He1 | exact Hflag1].
Qed.

(** The timer of an earlier differential-privacy submission fires while the
    federated call is in flight: the federated submission ends with the
    prompt flag set, and the modal is drawn over a federated [Result]. *)
Lemma federated_submission_runs_both_calls_witness :
  let earlier :=
    [ ClickRun;
      FetchSettles 0 (Ok (baselineData 86.5%float));
      FetchSettles 0 (Ok (privateData 84%float 1%float));
      ChooseTrainingMode fl ] in
  let w := run initialWorld earlier in
  let w2 := run w [ ClickRun;
                    FetchSettles 1 (Ok (baselineData 86.5%float));
                    TimerFires 0 1700000000000;
                    FetchSettles 1 (Ok (federatedData 86.5%float 84%float)) ] in
  pending w2 !! 1%nat = None
  /\ ComparisonData.private (comparison (app w2))
     = Some (federatedResult (app w) (federatedData 86.5%float 84%float))
  /\ showEthicsPrompt (app w2) = true
  /\ existsb is_timer [TimerFires 0 1700000000000] = true
  /\ ethicsPromptModal (app w2) = Rendered 0%float Undefined.
Proof.
  destruct (federated_submission_runs_both_calls
              (run initialWorld
                 [ ClickRun;
                   FetchSettles 0 (Ok (baselineData 86.5%float));
                   FetchSettles 0 (Ok (privateData 84%float 1%float));
                   ChooseTrainingMode fl ])
              (Ok (baselineData 86.5%float)) (Ok (federatedData 86.5%float 84%float))
              [] [TimerFires 0 1700000000000])
    as (_ & Hdone & _ & _ & Hpriv & _ & _ & Hflag);
    try reflexivity.
  split; [exact Hdone |].
  split; [exact Hpriv |].
  assert (Hon : showEthicsPrompt
                  (app (run (run initialWorld
                               [ ClickRun;
                                 FetchSettles 0 (Ok (baselineData 86.5%float));
                                 FetchSettles 0 (Ok (privateData 84%float 1%float));
                                 ChooseTrainingMode fl ])
                            [ ClickRun;
                              FetchSettles 1 (Ok (baselineData 86.5%float));
                              TimerFires 0 1700000000000;
                              FetchSettles 1 (Ok (federatedData 86.5%float 84%float)) ]))
                = true)
    by (vm_compute; reflexivity).
  split; [exact Hon |].
  split; [apply Hflag; vm_compute; reflexivity |].
  vm_compute. reflexivity.
Defined.

(** ** What a submission leaves alone *)

Lemma submission_settings_kept (w : World) (i : Input) :
  is_user_input i = false -> config (app (step w i)) = config (app w).
Proof.
  intros Hi.
  destruct i as [|id o|id now|m|b|n|v|v|v|v| |]; try discriminate Hi.
  - simpl. destruct (pending w !! id) as [k|]; [| reflexivity].
    destruct k as [snap|snap|snap|snap]; simpl; try reflexivity.
    + unfold runExperiment_resume.
      destruct (trainingMode snap); [destruct (Config.dpEnabled (config snap)) |];
        destruct (response_data _ o); reflexivity.
    + unfold runExperiment_resume. destruct (response_data _ o); reflexivity.
    + unfold runFederatedExperiment_resume. destruct (response_data _ o); reflexivity.
  - simpl. destruct (pending w !! id) as [[snap|snap|snap|snap]|]; try reflexivity.
    simpl. unfold ethicsPromptTimeout. destruct (shouldPrompt _ _); reflexivity.
Qed.

(** Starting a submission, the settling of a call and the firing of a timer
    never change what the user has chosen: the configuration, the training
    mode, the aggregator and the active tab. *)
Theorem submission_keeps_settings (w : World) (i : Input) :
  is_user_input i = false \/ i = ClickRun ->
  config (app (step w i)) = config (app w)
  /\ trainingMode (app (step w i)) = trainingMode (app w)
  /\ aggregator (app (step w i)) = aggregator (app w)
  /\ activeTab (app (step w i)) = activeTab (app w).
Proof.
  intros [Hi | ->]; [| repeat split].
  destruct i as [|id o|id now|m|b|n|v|v|v|v| |]; try discriminate Hi.
  - simpl. destruct (pending w !! id) as [k|]; [| repeat split].
    destruct k as [snap|snap|snap|snap]; simpl; try (repeat split; fail).
    + unfold runExperiment_resume.
      destruct (trainingMode snap); [destruct (Config.dpEnabled (config snap)) |];
        destruct (response_data _ o); repeat split.
    + unfold runExperiment_resume. destruct (response_data _ o); repeat split.
    + unfold runFederatedExperiment_resume. destruct (response_data _ o); repeat split.
  - simpl. destruct (pending w !! id) as [[snap|snap|snap|snap]|]; try (repeat split; fail).
    simpl. unfold ethicsPromptTimeout.
    destruct (shouldPrompt _ _); repeat split.
Qed.

Lemma submission_keeps_settings_witness :
  let w := run initialWorld [SlideEpsilon 2; ChooseAggregator "qffl"; ClickRun] in
  config (app (step w (FetchSettles 0 (Ok (baselineData 86.5%float)))))
  = Config.mk "diabetes" "fnn" true (Some 3%float)
  /\ aggregator (app (step w (FetchSettles 0 (Ok (baselineData 86.5%float))))) = "qffl".
Proof.
  destruct (submission_keeps_settings
              (run initialWorld [SlideEpsilon 2; ChooseAggregator "qffl"; ClickRun])
              (FetchSettles 0 (Ok (baselineData 86.5%float))))
    as (Hcfg & _ & Hagg & _).
  - left. reflexivity.
  - split.
    + etransitivity; [exact Hcfg | vm_compute; reflexivity].
    + etransitivity; [exact Hagg | vm_compute; reflexivity].
Defined.

(** ** What the cards print *)

Lemma js_or_absorb {A} `{Falsy A} (a b : Js A) : js_or (js_or a b) b = js_or a b.
Proof.
  unfold js_or. destruct (truthy a) eqn:Ea.
  - rewrite Ea. reflexivity.
  - destruct (truthy b); reflexivity.
Qed.

(** The accuracy loss of a differential-privacy result is computed in three
    places (the protected card, the modal, the ethics questions) with two
    different expressions; for every [Result] the orchestrator builds from a
    response they give the same number, and the questions and the modal
    print the same epsilon while the configuration is the one of the run. *)
Theorem private_loss_is_the_same_everywhere
    (st0 : AppState) (baseline : Result.t) (data : Data.t) :
  let private := privateResult (config st0) data in
  let st :=
    setShowEthicsPrompt true
      (setComparison (fun _ => ComparisonData.mk (Some baseline) (Some private)) st0) in
  cardLoss baseline private
  = (Result.baselineAccuracy baseline - Result.baselineAccuracy private)%float
  /\ ethicsPromptModal st = Rendered (cardLoss baseline private) (Result.epsilon private)
  /\ ethicsAccuracyLoss st = Some (cardLoss baseline private)
  /\ ethicsEpsilon st = Result.epsilon private.
Proof.
  intros private st.
  assert (E : or_else (Result.privateAccuracy private) (Result.baselineAccuracy private)
              = Result.baselineAccuracy private).
  { unfold private. cbn [privateResult Result.privateAccuracy Result.baselineAccuracy].
    destruct (Data.private_accuracy data) as [| |x]; try reflexivity.
    unfold or_else at 1. destruct (falsy x) eqn:Ex; [reflexivity |].
    unfold js_or, truthy. rewrite Ex. cbn [negb or_else]. rewrite Ex. reflexivity. }
  assert (Eloss : cardLoss baseline private
                  = (Result.baselineAccuracy baseline
                     - Result.baselineAccuracy private)%float).
  { unfold cardLoss. rewrite E. reflexivity. }
  split; [exact Eloss |].
  split; [rewrite Eloss; reflexivity |].
  split; [rewrite Eloss; reflexivity |].
  unfold ethicsEpsilon, st. cbn [comparison setShowEthicsPrompt setComparison
                                 ComparisonData.private config].
  unfold private. cbn [privateResult Result.epsilon]. apply js_or_absorb.
Qed.

(** A small metric that the service sends as [null] is stored as [null], and
    the card that prints it throws: a card of the current variant renders
    its three small metrics unless one of them came as [null], whichever
    call built the [Result]; the cards of the earlier variant print N/A
    instead. *)
Theorem null_metric_breaks_the_card (snap : AppState) (data : Data.t) :
  let has_null :=
    Data.f1_score data = Null \/ Data.precision data = Null \/ Data.recall data = Null in
  (cardRenders (baselineResult data) = false <-> has_null)
  /\ (cardRenders (privateResult (config snap) data) = false <-> has_null)
  /\ (cardRenders (federatedResult snap data) = false <-> has_null)
  /\ EarlierApp.cardRenders (baselineResult data) = true
  /\ EarlierApp.cardRenders (privateResult (config snap) data) = true
  /\ EarlierApp.cardRenders (Earlier.federatedResult snap data) = true.
Proof.
  intros has_null. unfold has_null, cardRenders, EarlierApp.cardRenders.
  cbn [baselineResult privateResult federatedResult Earlier.federatedResult
       Result.f1Score Result.precision Result.recall].
  destruct (Data.f1_score data) as [| |f], (Data.precision data) as [| |p],
    (Data.recall data) as [| |r];
    cbn [forallb metricCell EarlierApp.metricCell cell_renders andb];
    repeat split;
    try (intros _; tauto);
    try (intros H; discriminate H);
    try (intros [H | [H | H]]; discriminate H).
Qed.

(** ** Labels of aggregators *)

Lemma getAggregatorLabel_outside (x : string) :
  ~ In x aggregatorIds -> getAggregatorLabel x = x.
Proof.
  intros Hx. unfold getAggregatorLabel, aggregatorOptions. cbn [List.find value].
  repeat match goal with
         | |- context [String.eqb ?a x] =>
             destruct (String.eqb_spec a x) as [E | _];
             [exfalso; apply Hx; rewrite <- E; simpl; tauto |]
         end.
  reflexivity.
Qed.

Lemma aggregatorIds_dec (x : string) : In x aggregatorIds \/ ~ In x aggregatorIds.
Proof.
  destruct (in_dec String.string_dec x aggregatorIds); [left | right]; assumption.
Qed.

(** [getAggregatorLabel] echoes every string that is not one of the five
    selector values, and labelling twice is labelling once: a label, a
    service identifier or any unknown text passes through unchanged. *)
Theorem getAggregatorLabel_idempotent (x : string) :
  getAggregatorLabel (getAggregatorLabel x) = getAggregatorLabel x
  /\ (~ In x aggregatorIds -> getAggregatorLabel x = x).
Proof.
  split; [| apply getAggregatorLabel_outside].
  destruct (aggregatorIds_dec x) as [Hx | Hx].
  - simpl in Hx.
    repeat (destruct Hx as [<- | Hx]; [vm_compute; reflexivity |]).
    contradiction.
  - rewrite (getAggregatorLabel_outside x Hx). apply getAggregatorLabel_outside, Hx.
Qed.

(** ** The epsilon slider *)

Lemma step_epsilon (w : World) (i : Input) :
  slider_in_range i = true ->
  Config.epsilon (config (app (step w i))) = Config.epsilon (config (app w))
  \/ exists index, (index < 4)%nat
       /\ Config.epsilon (config (app (step w i))) = nth_error epsilonValues index.
Proof.
  intros Hi.
  destruct i as [|id o|id now|m|b|n|v|v|v|v| |];
    try (left; reflexivity).
  - left. apply (f_equal Config.epsilon).
    apply (submission_settings_kept w (FetchSettles id o)). reflexivity.
  - left. apply (f_equal Config.epsilon).
    apply (submission_settings_kept w (TimerFires id now)). reflexivity.
  - left. destruct m; reflexivity.
  - right. exists n. simpl in Hi. apply Nat.ltb_lt in Hi. split; [exact Hi | reflexivity].
Qed.

(** In every run in which the slider stays within its range, the configured
    epsilon is one of the four values of the slider, and the position the
    slider is drawn at is the index of that value: reading the position back
    gives the configured epsilon. *)
Theorem slider_tracks_epsilon (inputs : list Input) :
  forallb slider_in_range inputs = true ->
  let cfg := config (app (run initialWorld inputs)) in
  exists index,
    (index < 4)%nat
    /\ Config.epsilon cfg = nth_error epsilonValues index
    /\ sliderValue cfg = Z.of_nat index.
Proof.
  intros Hin cfg.
  assert (H : exists index, (index < 4)%nat
                /\ Config.epsilon cfg = nth_error epsilonValues index).
  { unfold cfg. clear cfg.
    assert (H0 : exists index, (index < 4)%nat
                   /\ Config.epsilon (config (app initialWorld))
                      = nth_error epsilonValues index)
      by (exists 1%nat; split; [lia | reflexivity]).
    revert H0 Hin. generalize initialWorld.
    induction inputs as [|i inputs IH]; intros w Hw Hin; [exact Hw |].
    simpl in Hin. apply andb_true_iff in Hin as [Hi Hin].
    simpl. apply IH; [| exact Hin].
    destruct (step_epsilon w i Hi) as [-> | Hnew]; assumption. }
  destruct H as (index & Hlt & He). exists index.
  split; [exact Hlt |]. split; [exact He |].
  unfold sliderValue. rewrite He.
  destruct index as [|[|[|[|index]]]]; try (vm_compute; reflexivity). lia.
Qed.

Lemma slider_tracks_epsilon_witness :
  let cfg := config (app (run initialWorld [SlideEpsilon 3; ToggleDp false])) in
  exists index,
    (index < 4)%nat
    /\ Config.epsilon cfg = nth_error epsilonValues index
    /\ sliderValue cfg = Z.of_nat index.
Proof.
  apply (slider_tracks_epsilon [SlideEpsilon 3; ToggleDp false]). reflexivity.
Defined.

(** ** Cards and the training mode *)

Lemma cards_follow_mode (st : AppState) (b p : Result.t) :
  comparison st = ComparisonData.mk (Some b) (Some p) ->
  status st = idle ->
  activeTab st = playground ->
  cardRenders b = true ->
  cardRenders p = true ->
  Result.aggregator p = Undefined ->
  let st4 := updateConfig (patch_dpEnabled false) (setTrainingMode fl st) in
  let st5 := updateConfig (patch_dpEnabled true) (setTrainingMode dp st4) in
  resultCards st4
  = [BaselineCard b; FederatedCard (Text (getAggregatorLabel (aggregator st))) p]
  /\ resultCards st5 = [BaselineCard b; PrivateCard p].
Proof.
  intros Hc Hs Htab Hb Hp Hagg st4 st5.
  assert (Hdraws : comparisonDraws (ComparisonData.mk (Some b) (Some p)) = true).
  { unfold comparisonDraws. cbn [ComparisonData.baseline ComparisonData.private].
    rewrite Hb, Hp, Hagg. reflexivity. }
  assert (Hpage4 : pageRenders st4 = true).
  { apply comparisonDraws_renders.
    change (comparison st4) with (comparison st). rewrite Hc. exact Hdraws. }
  assert (Hpage5 : pageRenders st5 = true).
  { apply comparisonDraws_renders.
    change (comparison st5) with (comparison st). rewrite Hc. exact Hdraws. }
  unfold resultCards. rewrite Hpage4, Hpage5.
  unfold drawsGrid, hasResults, isLoading, comparisonGrid.
  change (activeTab st4) with (activeTab st). change (activeTab st5) with (activeTab st).
  change (status st4) with (status st). change (status st5) with (status st).
  change (comparison st4) with (comparison st).
  change (comparison st5) with (comparison st).
  change (aggregator st4) with (aggregator st).
  rewrite Htab, Hs, Hc.
  cbn [ComparisonData.baseline ComparisonData.private andb negb].
  change (trainingMode st4) with fl. change (trainingMode st5) with dp.
  change (Config.dpEnabled (config st5)) with true.
  rewrite Hagg. split; reflexivity.
Qed.

(** Which protected card is drawn depends on the training mode selected
    now, not on the run that produced the result: after a successful
    differential-privacy submission whose cards draw, on the playground tab,
    selecting federated learning moves the same [Result] into the federated
    card, under the label of the selected aggregator, and selecting
    differential privacy moves it back. *)
Theorem protected_card_follows_selected_mode
    (w : World) (d1 d2 : Data.t) (q1 q2 : list Input) :
  trainingMode (app w) = dp ->
  Config.dpEnabled (config (app w)) = true ->
  forallb is_quiet q1 = true ->
  forallb is_quiet q2 = true ->
  cardRenders (baselineResult d1) = true ->
  cardRenders (privateResult (config (app w)) d2) = true ->
  let id := fresh w in
  let w3 :=
    run w (ClickRun :: q1 ++ FetchSettles id (Ok d1) :: q2 ++ [FetchSettles id (Ok d2)]) in
  let w4 := step w3 (ChooseTrainingMode fl) in
  let w5 := step w4 (ChooseTrainingMode dp) in
  let baseline := baselineResult d1 in
  let private := privateResult (config (app w)) d2 in
  activeTab (app w3) = playground ->
  resultCards (app w4)
  = [ BaselineCard baseline;
      FederatedCard (Text (getAggregatorLabel (aggregator (app w3)))) private ]
  /\ Result.strategy private = Val strategy_dp
  /\ resultCards (app w5) = [BaselineCard baseline; PrivateCard private].
Proof.
  intros Hmode Hdp Hq1 Hq2 Hb Hp id w3 w4 w5 baseline private Htab.
  pose (w2 := run w (ClickRun :: q1 ++ FetchSettles id (Ok d1) :: q2)).
  destruct (two_call_submission w (Ok d1) q1 q2 (or_intror Hdp) Hq1 Hq2)
    as (_ & Hc2 & _ & _ & Hk2 & _ & _).
  fold id in Hc2, Hk2. fold w2 in Hc2, Hk2.
  unfold protected_of in Hk2. rewrite Hmode in Hk2.
  assert (E3 : w3 = step w2 (FetchSettles id (Ok d2))) by apply run_submission.
  rewrite (step_settle_private w2 id (app w) (Ok d2) Hk2) in E3.
  assert (Hc3 : comparison (app w3) = ComparisonData.mk (Some baseline) (Some private)).
  { rewrite E3. cbn [app]. unfold runExperiment_resume. cbn [response_data].
    change (comparison (setStatus idle ?st)) with (comparison st).
    cbn [setComparison comparison]. rewrite Hc2. reflexivity. }
  assert (Hs3 : status (app w3) = idle) by (rewrite E3; reflexivity).
  destruct (cards_follow_mode (app w3) baseline private Hc3 Hs3 Htab Hb Hp eq_refl)
    as [H4 H5].
  split; [exact H4 |]. split; [reflexivity | exact H5].
Qed.

Lemma protected_card_follows_selected_mode_witness :
  let w3 := run initialWorld
              [ ClickRun;
                FetchSettles 0 (Ok (baselineData 86.5%float));
                ChooseAggregator "qffl";
                FetchSettles 0 (Ok (privateData 84%float 1%float)) ] in
  resultCards (app (step w3 (ChooseTrainingMode fl)))
  = [ BaselineCard (baselineResult (baselineData 86.5%float));
      FederatedCard (Text "q-FedAvg")
        (privateResult (config initialState) (privateData 84%float 1%float)) ].
Proof.
  destruct (protected_card_follows_selected_mode initialWorld
              (baselineData 86.5%float) (privateData 84%float 1%float)
              [] [ChooseAggregator "qffl"])
    as (Hfl & _ & _);
    [reflexivity | reflexivity | reflexivity | reflexivity | reflexivity | reflexivity
    | reflexivity |].
  etransitivity; [exact Hfl | vm_compute; reflexivity].
Defined.

(** ** The accuracy loss of the earlier variant *)

(** In the earlier variant the accuracy loss of a federated [Result] is
    taken from the baseline [Result] that was on screen when the run button
    was clicked, that of the previous submission: the baseline call of the
    submission itself has no part in it, and after a first submission the
    loss is undefined even though the baseline call succeeded. *)
Theorem earlier_loss_uses_previous_baseline
    (w : World) (o1 : FetchOutcome) (d2 : Data.t) :
  trainingMode (app w) = fl ->
  let w2 := EarlierApp.run w
              [ClickRun; FetchSettles (fresh w) o1; FetchSettles (fresh w) (Ok d2)] in
  Result.accuracyLoss <$> ComparisonData.private (comparison (app w2))
  = Some match ComparisonData.baseline (comparison (app w)) with
         | Some previous =>
             Val (Result.baselineAccuracy previous
                  - or_else (Data.accuracy d2) 0%float)%float
         | None => Undefined
         end.
Proof.
  intros Hmode w2.
  assert (E0 : EarlierApp.step w ClickRun = step w ClickRun) by reflexivity.
  assert (E1 : EarlierApp.step (step w ClickRun) (FetchSettles (fresh w) o1)
               = step (step w ClickRun) (FetchSettles (fresh w) o1)).
  { assert (Hk0 : pending (step w ClickRun) !! fresh w = Some (AwaitBaseline (app w))).
    { rewrite step_click. apply lookup_insert_eq. }
    revert Hk0. generalize (step w ClickRun). intros w1 Hk0.
    unfold EarlierApp.step, step. rewrite Hk0. reflexivity. }
  assert (Hk0 : pending (step w ClickRun) !! fresh w = Some (AwaitBaseline (app w))).
  { rewrite step_click. apply lookup_insert_eq. }
  assert (E1' := step_settle_baseline_fl _ (fresh w) (app w) o1 Hk0 Hmode).
  unfold w2, EarlierApp.run. cbn [fold_left]. rewrite E0, E1, E1'.
  remember (runExperiment_resume true (app w) o1 (app (step w ClickRun))) as st1 eqn:Est1.
  clear Est1.
  unfold EarlierApp.step. cbn [pending]. rewrite lookup_insert_eq.
  cbn. reflexivity.
Qed.

Lemma earlier_loss_uses_previous_baseline_witness :
  let w := step initialWorld (ChooseTrainingMode fl) in
  let w2 := EarlierApp.run w
              [ ClickRun;
                FetchSettles 0 (Ok (baselineData 86.5%float));
                FetchSettles 0 (Ok (federatedData 86.5%float 84%float)) ] in
  ComparisonData.baseline (comparison (app w2))
  = Some (baselineResult (baselineData 86.5%float))
  /\ Result.accuracyLoss <$> ComparisonData.private (comparison (app w2))
     = Some Undefined.
Proof.
  split; [vm_compute; reflexivity |].
  apply (earlier_loss_uses_previous_baseline
           (step initialWorld (ChooseTrainingMode fl))
           (Ok (baselineData 86.5%float)) (federatedData 86.5%float 84%float)).
  reflexivity.
Defined.

(** ** The ethics questions *)

Lemma quiz_step_bounded (q : Quiz) (st : AppState) (i : QuizInput) :
  (currentQuestion q <= 2)%nat ->
  Forall (fun r => In (questionId r) ethicsQuestionIds) (ethicsResponses q) ->
  exists q' st',
    quiz_step (Some (q, st)) i = Some (q', st')
    /\ currentQuestion q' = Nat.min (currentQuestion q + 1) 2
    /\ length (ethicsResponses q')
       = (length (ethicsResponses q) + if is_answer i then 1 else 0)%nat
    /\ Forall (fun r => In (questionId r) ethicsQuestionIds) (ethicsResponses q').
Proof.
  intros Hc Hr.
  destruct q as [responses current]. cbn [currentQuestion ethicsResponses] in *.
  assert (Hcases : current = 0%nat \/ current = 1%nat \/ current = 2%nat) by lia.
  destruct i as [a|]; cbn [quiz_step is_answer];
    destruct Hcases as [-> | [-> | ->]];
    unfold handleEthicsAnswer, skipEthicsQuestion;
    cbn [currentQuestion ethicsResponses nth_error ethicsQuestionIds length
         Nat.sub Nat.ltb Nat.leb Nat.add Nat.min];
    eexists; eexists;
    (split; [reflexivity |]); (split; [reflexivity |]);
    cbn [ethicsResponses]; rewrite ?length_app; cbn [length]; (split; [lia |]);
    try exact Hr;
    (apply Forall_app; split; [exact Hr |]);
    (constructor; [cbn; tauto | constructor]).
Qed.

(** The two handlers of the ethics questions keep the index of the current
    question within the three questions, so answering never reads past the
    list: after any sequence of answers and skips the index is the number of
    inputs, capped at the last question; it never goes back, so once the
    last question is reached every further answer is recorded against it.
    Each answer adds one response and a skip adds none. *)
Theorem ethics_question_index_stays_in_bounds (st : AppState) (inputs : list QuizInput) :
  exists q st',
    quiz_run initialQuiz st inputs = Some (q, st')
    /\ currentQuestion q = Nat.min (length inputs) 2
    /\ length (ethicsResponses q) = length (List.filter is_answer inputs)
    /\ Forall (fun r => In (questionId r) ethicsQuestionIds) (ethicsResponses q).
Proof.
  unfold quiz_run.
  assert (H : forall inputs q st,
             (currentQuestion q <= 2)%nat ->
             Forall (fun r => In (questionId r) ethicsQuestionIds) (ethicsResponses q) ->
             exists q' st',
               fold_left quiz_step inputs (Some (q, st)) = Some (q', st')
               /\ currentQuestion q' = Nat.min (currentQuestion q + length inputs) 2
               /\ length (ethicsResponses q')
                  = (length (ethicsResponses q) + length (List.filter is_answer inputs))%nat
               /\ Forall (fun r => In (questionId r) ethicsQuestionIds)
                         (ethicsResponses q')).
  { clear. induction inputs as [|i inputs IH]; intros q st Hc Hr.
    - exists q, st. cbn. repeat split; [lia | lia | exact Hr].
    - destruct (quiz_step_bounded q st i Hc Hr) as (q1 & st1 & E1 & Hc1 & Hl1 & Hr1).
      assert (Hc1' : (currentQuestion q1 <= 2)%nat) by lia.
      destruct (IH q1 st1 Hc1' Hr1) as (q' & st' & E & Hc' & Hl' & Hr').
      exists q', st'. cbn [fold_left]. rewrite E1.
      split; [exact E |]. split; [| split; [| exact Hr']].
      + rewrite Hc', Hc1. cbn [length]. lia.
      + rewrite Hl', Hl1. cbn [List.filter]. destruct (is_answer i); cbn [length]; lia. }
  destruct (H inputs initialQuiz st) as (q & st' & E & Hc & Hl & Hr);
    [cbn; lia | constructor |].
  exists q, st'. repeat split; assumption.
Qed.

(** ** The first variant: quick tests and uploads *)

Lemma simple_step_timer (w : Simple.World) (id : nat) (snap : Simple.AppState) :
  Simple.pending w !! id = Some (Simple.QuickTimer snap) ->
  Simple.step w (Simple.TimerFires id)
  = Simple.mkWorld
      (Simple.setResult None
         (Simple.setError None (Simple.setStatus running (Simple.app w))))
      (<[id := Simple.AwaitRun]> (Simple.pending w)) (Simple.fresh w)
      (Simple.Json (experimentRequest false (Simple.config snap)) :: Simple.log w).
Proof. intros H. unfold Simple.step. rewrite H. reflexivity. Qed.

Lemma simple_step_settle (w : Simple.World) (id : nat) (o : Simple.Outcome) :
  Simple.pending w !! id = Some Simple.AwaitRun ->
  Simple.step w (Simple.FetchSettles id o)
  = Simple.mkWorld (Simple.run_resume o (Simple.app w))
      (delete id (Simple.pending w)) (Simple.fresh w) (Simple.log w).
Proof. intros H. unfold Simple.step. rewrite H. reflexivity. Qed.

(** A quick-test button updates the configuration and schedules
    [runExperiment] of the render it was clicked in: the request that goes
    out when the timer fires is built from the configuration as it was
    before the click, not from the preset of the button, while the
    configuration on screen is the preset. *)
Theorem quick_test_sends_previous_configuration (w : Simple.World) (p : Simple.Preset) :
  let previous := Simple.config (Simple.app w) in
  let w2 := fold_left Simple.step
              [Simple.QuickTest p; Simple.TimerFires (Simple.fresh w)] w in
  Simple.config (Simple.app w2) = Simple.presetConfig p previous
  /\ Simple.log w2
     = Simple.Json
         (ExperimentRequest (Config.sampleDataset previous) (Config.modelType previous)
            (Config.dpEnabled previous)
            (if Config.dpEnabled previous then of_option (Config.epsilon previous)
             else Null))
       :: Simple.log w
  /\ Simple.status (Simple.app w2) = running.
Proof.
  intros previous w2. unfold w2. cbn [fold_left].
  unfold Simple.step at 2. cbn [Simple.pending Simple.app Simple.fresh Simple.log].
  unfold Simple.step. cbn [Simple.pending]. rewrite lookup_insert_eq.
  cbn. repeat split.
Qed.

(** [runExperimentWithUpload] without a selected file does nothing but set
    the error "Please select a CSV file first": no call is issued, the
    status stays as it is and the result on screen is kept. *)
Theorem upload_without_file_is_refused (w : Simple.World) :
  Simple.selectedFile (Simple.app w) = None ->
  let w' := Simple.step w Simple.ClickUpload in
  Simple.error (Simple.app w') = Some "Please select a CSV file first"
  /\ Simple.log w' = Simple.log w
  /\ Simple.pending w' = Simple.pending w
  /\ Simple.status (Simple.app w') = Simple.status (Simple.app w)
  /\ Simple.result (Simple.app w') = Simple.result (Simple.app w).
Proof.
  intros Hfile w'. unfold w', Simple.step, Simple.runExperimentWithUpload_start.
  rewrite Hfile. repeat split.
Qed.

(** The state is reached through the interface: hiding the advanced fields
    unmounts the file input, showing them again mounts an empty one, and
    the upload button is still rendered for the file chosen before. *)
Lemma upload_without_file_is_refused_witness :
  let w := Simple.ui_run Simple.initialWorld
             [ Simple.ToggleAdvanced; Simple.SelectFile (Some "data.csv");
               Simple.ToggleAdvanced; Simple.ToggleAdvanced ] in
  Simple.enabled (Simple.app w) Simple.ClickUpload = true
  /\ Simple.error (Simple.app (Simple.ui_step w Simple.ClickUpload))
     = Some "Please select a CSV file first"
  /\ Simple.log (Simple.ui_step w Simple.ClickUpload) = [].
Proof.
  split; [reflexivity |].
  destruct (upload_without_file_is_refused
              (Simple.ui_run Simple.initialWorld
                 [ Simple.ToggleAdvanced; Simple.SelectFile (Some "data.csv");
                   Simple.ToggleAdvanced; Simple.ToggleAdvanced ]))
    as (Herr & Hlog & _).
  - reflexivity.
  - split; [exact Herr | exact Hlog].
Defined.

(** The form of an upload always carries the file, the dataset, the model
    type and the privacy flag; it carries an epsilon exactly when privacy is
    enabled and the configured epsilon is a non-zero number, and a target
    column exactly when a non-empty one was typed. *)
Theorem upload_form_fields
    (file : string) (cfg : Config.t) (info : option Simple.UploadInfo)
    (v : Simple.FormValue) :
  let form := Simple.uploadForm file cfg info in
  firstn 4 form
  = [ ("file", Simple.FileValue file);
      ("dataset", Simple.TextValue (Config.sampleDataset cfg));
      ("model_type", Simple.TextValue (Config.modelType cfg));
      ("dp_enabled", Simple.BoolText (Config.dpEnabled cfg)) ]
  /\ (In ("epsilon", v) form
      <-> exists e, Config.epsilon cfg = Some e /\ Config.dpEnabled cfg = true
                    /\ falsy e = false /\ v = Simple.NumberText e)
  /\ (In ("target_column", v) form
      <-> exists name column,
            info = Some (Simple.mkUpload name (Val column))
            /\ column <> "" /\ v = Simple.TextValue column).
Proof.
  intros form. unfold form, Simple.uploadForm.
  split; [reflexivity |].
  assert (Hhead : forall (k : string) (tail : list (string * Simple.FormValue)),
             k = "epsilon" \/ k = "target_column" ->
             In (k, v)
                ([ ("file", Simple.FileValue file);
                   ("dataset", Simple.TextValue (Config.sampleDataset cfg));
                   ("model_type", Simple.TextValue (Config.modelType cfg));
                   ("dp_enabled", Simple.BoolText (Config.dpEnabled cfg)) ] ++ tail)%list
             <-> In (k, v) tail).
  { intros k tail Hk. cbn. split; [| tauto].
    intros [H | [H | [H | [H | H]]]]; try exact H;
      destruct Hk as [-> | ->]; discriminate H. }
  split.
  - rewrite Hhead by tauto. rewrite in_app_iff.
    split.
    + intros [H | H].
      * destruct (Config.epsilon cfg) as [e|]; [| contradiction].
        destruct (Config.dpEnabled cfg); cbn [andb] in H; [| contradiction].
        destruct (falsy e) eqn:Ee; cbn [negb] in H; [contradiction |].
        destruct H as [H | []]. exists e.
        split; [reflexivity |]. split; [reflexivity |]. split; [exact Ee |].
        apply (f_equal snd) in H. symmetry. exact H.
      * destruct info as [[name [| |column]]|]; try contradiction.
        destruct (falsy column); [contradiction |].
        destruct H as [H | []]. discriminate H.
    + intros (e & -> & -> & Ee & ->). left. cbn [andb]. rewrite Ee. left. reflexivity.
  - rewrite Hhead by tauto. rewrite in_app_iff.
    split.
    + intros [H | H].
      * destruct (Config.epsilon cfg) as [e|]; [| contradiction].
        destruct (Config.dpEnabled cfg && negb (falsy e)); [| contradiction].
        destruct H as [H | []]. discriminate H.
      * destruct info as [[name [| |column]]|]; try contradiction.
        destruct (falsy column) eqn:Ec; [contradiction |].
        destruct H as [H | []]. exists name, column.
        split; [reflexivity |]. split.
        -- intros ->. discriminate Ec.
        -- apply (f_equal snd) in H. symmetry. exact H.
    + intros (name & column & -> & Hne & ->). right.
      apply String.eqb_neq in Hne. unfold falsy, string_falsy. rewrite Hne.
      left. reflexivity.
Qed.

(** The quick-test timer is not held back by a run in flight: a quick test
    followed by a click on the run button before the timer fires leaves two
    calls in flight, each of which will write [result] and set the status
    to idle when it settles. *)
Theorem quick_test_overlaps_a_run (w : Simple.World) (p : Simple.Preset) :
  Simple.status (Simple.app w) = idle ->
  let id := Simple.fresh w in
  let w3 := Simple.ui_run w [Simple.QuickTest p; Simple.ClickRun; Simple.TimerFires id] in
  Simple.pending w3 !! id = Some Simple.AwaitRun
  /\ Simple.pending w3 !! S id = Some Simple.AwaitRun
  /\ length (Simple.log w3) = (2 + length (Simple.log w))%nat
  /\ (forall o,
        Simple.status (Simple.app (Simple.ui_step w3 (Simple.FetchSettles id o))) = idle
        /\ Simple.pending (Simple.ui_step w3 (Simple.FetchSettles id o)) !! S id
           = Some Simple.AwaitRun).
Proof.
  intros Hidle id w3.
  assert (E1 : Simple.ui_step w (Simple.QuickTest p)
               = Simple.mkWorld (Simple.setConfig (Simple.presetConfig p) (Simple.app w))
                   (<[id := Simple.QuickTimer (Simple.app w)]> (Simple.pending w))
                   (S id) (Simple.log w)).
  { unfold Simple.ui_step, Simple.enabled, Simple.isLoading.
    rewrite Hidle. reflexivity. }
  assert (E2 : forall st pend l,
             Simple.status st = idle ->
             Simple.ui_step (Simple.mkWorld st pend (S id) l) Simple.ClickRun
             = Simple.mkWorld
                 (Simple.setResult None (Simple.setError None (Simple.setStatus running st)))
                 (<[S id := Simple.AwaitRun]> pend) (S (S id))
                 (Simple.Json (experimentRequest false (Simple.config st)) :: l)).
  { intros st pend l Hst.
    unfold Simple.ui_step, Simple.enabled, Simple.isLoading. cbn [Simple.app].
    rewrite Hst. reflexivity. }
  assert (E3 : w3
               = Simple.mkWorld
                   (Simple.setResult None
                      (Simple.setError None
                         (Simple.setStatus running
                            (Simple.setResult None
                               (Simple.setError None
                                  (Simple.setStatus running
                                     (Simple.setConfig (Simple.presetConfig p)
                                        (Simple.app w))))))))
                   (<[id := Simple.AwaitRun]>
                      (<[S id := Simple.AwaitRun]>
                         (<[id := Simple.QuickTimer (Simple.app w)]> (Simple.pending w))))
                   (S (S id))
                   (Simple.Json (experimentRequest false (Simple.config (Simple.app w)))
                    :: Simple.Json
                         (experimentRequest false
                            (Simple.presetConfig p (Simple.config (Simple.app w))))
                    :: Simple.log w)).
  { unfold w3, Simple.ui_run. cbn [fold_left]. rewrite E1.
    rewrite E2 by exact Hidle.
    unfold Simple.ui_step. cbn [Simple.enabled].
    apply simple_step_timer. cbn [Simple.pending].
    rewrite lookup_insert_ne by lia. apply lookup_insert_eq. }
  clearbody w3. subst w3.
  cbn [Simple.pending Simple.log Simple.app].
  split; [apply lookup_insert_eq |].
  split; [rewrite lookup_insert_ne by lia; apply lookup_insert_eq |].
  split; [reflexivity |].
  intros o. unfold Simple.ui_step. cbn [Simple.enabled].
  rewrite simple_step_settle by apply lookup_insert_eq.
  cbn [Simple.app Simple.pending]. split; [reflexivity |].
  rewrite lookup_delete_ne by lia.
  rewrite lookup_insert_ne by lia. apply lookup_insert_eq.
Qed.

Lemma quick_test_overlaps_a_run_witness :
  let w3 := Simple.ui_run Simple.initialWorld
              [Simple.QuickTest Simple.DpDiabetes; Simple.ClickRun; Simple.TimerFires 0] in
  Simple.pending w3 !! 0%nat = Some Simple.AwaitRun
  /\ Simple.pending w3 !! 1%nat = Some Simple.AwaitRun.
Proof.
  destruct (quick_test_overlaps_a_run Simple.initialWorld Simple.DpDiabetes)
    as (H0 & H1 & _).
  - reflexivity.
  - split; [exact H0 | exact H1].
Defined.

(** ** Errors on screen *)

(** When the last call of a submission is answered with an error status,
    the submission ends there, with the status idle and [comparison] as it
    was, and [error] holds the text of the [detail] of the body, or the
    fixed message of the call when there is no [detail].  That text is not
    empty when the [detail] is a string or absent.  With a [comparison]
    whose cards draw, the page renders, and on the playground tab the error
    box is on screen exactly when the text is not empty. *)
Theorem http_error_ends_in_error_box
    (w : World) (id : nat) (k : Suspended) (body : ErrorBody) :
  pending w !! id = Some k ->
  awaits_last_call k = true ->
  let w' := step w (FetchSettles id (NotOk body)) in
  let message := catch_message (thrown_for (fallback_of k) body) in
  error (app w') = Some message
  /\ status (app w') = idle
  /\ comparison (app w') = comparison (app w)
  /\ (forall id' k', pending w' !! id' = Some k' -> awaits_fetch k' = true -> id' <> id)
  /\ (detail_is_text body = true -> message <> "")
  /\ (comparisonDraws (comparison (app w)) = true ->
      pageRenders (app w') = true
      /\ (activeTab (app w) = playground ->
          showsErrorBox (app w') = negb (String.eqb message ""))).
Proof.
  intros Hk Hlast w' message.
  assert (E : app w'
              = setStatus idle (setError (Some message) (app w))
              /\ forall id' k', pending w' !! id' = Some k' -> awaits_fetch k' = true ->
                                id' <> id).
  { unfold w', message.
    destruct k as [snap|snap|snap|snap]; cbn [awaits_last_call] in Hlast;
      try discriminate Hlast.
    - destruct (trainingMode snap) eqn:Emode; [| discriminate Hlast].
      apply negb_true_iff in Hlast.
      rewrite (step_settle_baseline_only w id snap _ Hk Emode Hlast).
      cbn [app pending]. split; [reflexivity |].
      intros id' k' H _ ->. rewrite lookup_delete_eq in H. discriminate H.
    - rewrite (step_settle_private w id snap _ Hk).
      cbn [app pending]. split; [reflexivity |].
      intros id' k' H Hf ->. rewrite lookup_insert_eq in H.
      injection H as <-. discriminate Hf.
    - rewrite (step_settle_federated w id snap _ Hk).
      cbn [app pending]. split; [reflexivity |].
      intros id' k' H _ ->. rewrite lookup_delete_eq in H. discriminate H. }
  destruct E as [E Hnone]. clearbody w'.
  split; [rewrite E; reflexivity |].
  split; [rewrite E; reflexivity |].
  split; [rewrite E; reflexivity |].
  split; [exact Hnone |].
  split.
  { intros Htext.
    destruct (thrown_for_text (fallback_of k) body Htext (fallback_of_nonempty k))
      as (m & Hm & Hne).
    unfold message. rewrite Hm. exact Hne. }
  intros Hdraws.
  assert (Hpage : pageRenders (app w') = true).
  { apply comparisonDraws_renders. rewrite E. exact Hdraws. }
  split; [exact Hpage |].
  intros Htab. unfold showsErrorBox. rewrite Hpage, E.
  cbn [setStatus setError activeTab error]. rewrite Htab. reflexivity.
Qed.

(** The federated call answered with an error status: with a [detail]
    string the error box shows it; with an empty array as [detail] the
    message is the empty string and there is no error box. *)
Lemma http_error_ends_in_error_box_witness :
  let w := run initialWorld
             [ChooseTrainingMode fl; ClickRun; FetchSettles 0 (Ok (baselineData 86.5%float))] in
  let shown := step w (FetchSettles 0 (NotOk (Parsed (detailBody "Model file not found")))) in
  let hidden :=
    step w (FetchSettles 0 (NotOk (Parsed (JObject [("detail", JArray [])])))) in
  (error (app shown) = Some "Model file not found"
   /\ showsErrorBox (app shown) = true)
  /\ (error (app hidden) = Some ""
      /\ status (app hidden) = idle
      /\ showsErrorBox (app hidden) = false).
Proof.
  split.
  - destruct (http_error_ends_in_error_box
                (run initialWorld
                   [ ChooseTrainingMode fl; ClickRun;
                     FetchSettles 0 (Ok (baselineData 86.5%float)) ])
                0%nat (AwaitFederated (app (step initialWorld (ChooseTrainingMode fl))))
                (Parsed (detailBody "Model file not found")))
      as (Herr & _ & _ & _ & _ & Hbox);
      [vm_compute; reflexivity | reflexivity |].
    split; [exact Herr |].
    destruct Hbox as [_ Hbox]; [vm_compute; reflexivity |].
    apply Hbox. reflexivity.
  - destruct (http_error_ends_in_error_box
                (run initialWorld
                   [ ChooseTrainingMode fl; ClickRun;
                     FetchSettles 0 (Ok (baselineData 86.5%float)) ])
                0%nat (AwaitFederated (app (step initialWorld (ChooseTrainingMode fl))))
                (Parsed (JObject [("detail", JArray [])])))
      as (Herr & Hidle & _ & _ & _ & Hbox);
      [vm_compute; reflexivity | reflexivity |].
    split; [exact Herr |].
    split; [exact Hidle |].
    destruct Hbox as [_ Hbox]; [vm_compute; reflexivity |].
    apply Hbox. reflexivity.
Defined.

(** ** The first variant: what a run leaves on screen *)

(** A run of the first variant that nothing overlaps ends with a result or
    with an error, never both and never neither: the result of the response
    when the call succeeded, an error message otherwise; what the previous
    run left is cleared when the run starts. *)
Theorem simple_run_ends_with_result_or_error (w : Simple.World) (o : Simple.Outcome) :
  let id := Simple.fresh w in
  let w1 := Simple.step w Simple.ClickRun in
  let w2 := Simple.step w1 (Simple.FetchSettles id o) in
  Simple.result (Simple.app w1) = None
  /\ Simple.error (Simple.app w1) = None
  /\ Simple.status (Simple.app w2) = idle
  /\ match o with
     | Simple.Ok data =>
         Simple.result (Simple.app w2) = Some (Simple.resultOf data)
         /\ Simple.error (Simple.app w2) = None
     | _ =>
         Simple.result (Simple.app w2) = None
         /\ exists message, Simple.error (Simple.app w2) = Some message
     end.
Proof.
  intros id w1 w2.
  split; [reflexivity |]. split; [reflexivity |].
  unfold w2, w1, Simple.step at 1. cbn [Simple.step Simple.start_run Simple.pending].
  rewrite lookup_insert_eq. cbn [Simple.app].
  unfold Simple.run_resume.
  destruct o as [e|e|detail|e|data]; cbn; repeat split; eauto.
Qed.

(** The first variant stores the fields of a response as they come, without
    defaults, and prints the headline accuracy with [toFixed]: the headline
    of the results card throws exactly when the accuracy it picks came
    absent or [null] in the response, that is the baseline accuracy with
    privacy disabled, and with privacy enabled both the private and the
    baseline accuracy. *)
Theorem simple_headline_needs_accuracy (cfg : Config.t) (data : Data.t) :
  let nullish (v : Js float) := v = Undefined \/ v = Null in
  Simple.headlineMetric cfg (Simple.resultOf data) = None
  <-> (if Config.dpEnabled cfg
       then nullish (Data.private_accuracy data) /\ nullish (Data.baseline_accuracy data)
       else nullish (Data.baseline_accuracy data)).
Proof.
  intros nullish. unfold nullish, Simple.headlineMetric. cbn [Simple.resultOf
    Simple.Result.privateAccuracy Simple.Result.baselineAccuracy].
  destruct (Config.dpEnabled cfg), (Data.private_accuracy data) as [| |p],
    (Data.baseline_accuracy data) as [| |b];
    split; intros H; try tauto; try discriminate H;
    repeat match goal with
           | H : _ /\ _ |- _ => destruct H
           | H : _ \/ _ |- _ => destruct H
           end; discriminate.
Qed.
